(** * Smart-Shopping: cart and order views

    A shallow embedding of [orders/views.py] (the [CartViewSet] and
    [OrderViewSet] request handlers) over an explicit database state, and
    the properties the storefront specification states about them.

    The handlers are Django REST views: each reads and writes model rows
    and answers with a [Response] or raises.  A handler is modelled as a
    function from the database before the request to the database after it
    and the outcome sent to the client.  Tables are finite maps from primary
    key to row, so primary keys are unique by construction. *)

From stdpp Require Import base option gmap list strings sorting.

Open Scope string_scope.
Open Scope Z_scope.

(** ** Model rows

    The model classes are declared in [orders/models.py] and
    [products/models.py]; the views read them through
    [product.stock_quantity], [cart_item.quantity], [cart_item.product],
    [request.user.is_admin], and the keyword arguments of their queries
    ([user=], [cart=], [product_id=], [id=]).  The remaining fields follow
    the data model of the specification. *)

(** [request.user], as resolved by the authentication layer. *)
Record User := { user_id : Z; is_admin : bool }.

Module Product.
(** Modelled from the spec: the name and the unit price (in the smallest
    currency unit) of a product ([products/models.py]); [stock_quantity] is
    the attribute the views read. *)
Record t := { name : string; price : Z; stock_quantity : Z }.

Definition with_stock_quantity (s : Z) (p : t) : t :=
  {| name := name p; price := price p; stock_quantity := s |}.
End Product.

Module CartItem.
(** A [CartItem] row as the views use it: [cart], [product_id] and
    [quantity].  A [Cart] row belongs to one user and the views only ever
    select it by [user=request.user], so a cart is identified by its
    owner. *)
Record t := { cart : Z; product_id : Z; quantity : Z }.

Definition with_quantity (q : Z) (it : t) : t :=
  {| cart := cart it; product_id := product_id it; quantity := q |}.
End CartItem.

(** Modelled from the spec: the statuses of an order ([orders/models.py]). *)
Inductive Status := pending | processing | shipped | delivered | cancelled.

Global Instance Status_eq_dec : EqDecision Status.
Proof. solve_decision. Defined.

Module OrderLine.
(** Modelled from the spec: the immutable snapshot of one purchased line. *)
Record t := { product_id : Z; product_name : string;
              unit_price : Z; quantity : Z }.
End OrderLine.

Module Order.
(** Modelled from the spec: the [Order] model ([orders/models.py]); the
    views use [user]. *)
Record t := { user : Z; status : Status;
              lines : list OrderLine.t; total : Z }.

Definition with_status (s : Status) (o : t) : t :=
  {| user := user o; status := s; lines := lines o; total := total o |}.
End Order.

(** ** Database state *)

Record DB := {
  products : gmap Z Product.t;      (* Product rows by pk *)
  carts : gset Z;                   (* owners of the Cart rows *)
  cart_items : gmap Z CartItem.t;   (* CartItem rows by pk *)
  orders : gmap Z Order.t           (* Order rows by pk *)
}.

Definition set_products (v : gmap Z Product.t) (db : DB) : DB :=
  {| products := v; carts := carts db;
     cart_items := cart_items db; orders := orders db |}.

Definition set_carts (v : gset Z) (db : DB) : DB :=
  {| products := products db; carts := v;
     cart_items := cart_items db; orders := orders db |}.

Definition set_cart_items (v : gmap Z CartItem.t) (db : DB) : DB :=
  {| products := products db; carts := carts db;
     cart_items := v; orders := orders db |}.

Definition set_orders (v : gmap Z Order.t) (db : DB) : DB :=
  {| products := products db; carts := carts db;
     cart_items := cart_items db; orders := v |}.

(** ** Requests and outcomes *)

(** [request.data] of the cart endpoints: a dictionary of numeric fields. *)
Abbreviation QueryDict := (gmap string Z).

(** Modelled from the spec: the error taxonomy; a serializer
    ([orders/serializers.py]) that rejects its input raises a validation
    error carrying one of these. *)
Inductive Error :=
  | InvalidQuantity
  | InsufficientStock (failed : list (Z * Z * Z)) (* product, requested, available *)
  | NotFound
  | EmptyCart
  | Forbidden
  | InvalidTransition.

Inductive Body :=
  | error (msg : string)                              (* {'error': msg} *)
  | message (msg : string)                            (* {'message': msg} *)
  | CartItemSerializer_data (pk : Z) (it : CartItem.t)
  | OrderSerializer_data (pk : Z) (o : Order.t).

Definition HTTP_200_OK : Z := 200.
Definition HTTP_201_CREATED : Z := 201.
Definition HTTP_400_BAD_REQUEST : Z := 400.
Definition HTTP_403_FORBIDDEN : Z := 403.

Inductive Outcome :=
  | Response (data : Body) (status : Z)
  | Http404                          (* raised by get_object_or_404 / get_object *)
  | ValidationError (detail : Error) (* raised by is_valid(raise_exception=True) *)
  | IntegrityError                   (* insert of a row whose foreign key dangles *)
  | DoesNotExist                     (* following a foreign key to a missing row *)
  | MultipleObjectsReturned.         (* get() matched more than one row *)

(** ** CartViewSet *)

Module CartViewSet.
Section views.
(** [CartItemSerializer(data=request.data).is_valid(raise_exception=True)]
    followed by the reads of [validated_data]: the serializer class lives
    in [orders/serializers.py]; the view only needs its verdict and the
    validated [(product_id, quantity)]. *)
Variable CartItemSerializer_is_valid : DB → QueryDict → Error + Z * Z.

(** [Cart.objects.get_or_create(user=request.user)] *)
Definition Cart_get_or_create (db : DB) (user : User) : DB * bool :=
  if decide (user_id user ∈ carts db) then (db, false)
  else (set_carts ({[user_id user]} ∪ carts db) db, true).

(** [CartItem.objects.filter(cart=cart, product_id=product_id)] *)
Definition CartItem_filter (db : DB) (cart product_id : Z)
  : list (Z * CartItem.t) :=
  map_to_list
    (filter (λ kv, CartItem.cart kv.2 = cart
                   ∧ CartItem.product_id kv.2 = product_id)
            (cart_items db)).

(** [CartItem.objects.get(cart=cart, id=item_id)], [None] when no row
    matches ([item_id] itself is [None] when the payload has no such key). *)
Definition CartItem_get (db : DB) (cart : Z) (item_id : option Z)
  : option (Z * CartItem.t) :=
  pk ← item_id;
  it ← cart_items db !! pk;
  if decide (CartItem.cart it = cart) then Some (pk, it) else None.

Definition get_object (db : DB) (user : User) : DB :=
  (Cart_get_or_create db user).1.

Definition add_item (db : DB) (user : User) (data : QueryDict)
  : DB * Outcome :=
  let '(db, _) := Cart_get_or_create db user in
  let cart := user_id user in
  match CartItemSerializer_is_valid db data with
  | inl e => (db, ValidationError e)
  | inr (product_id, quantity) =>
    match CartItem_filter db cart product_id with
    | [] =>
      (* created, with defaults={'quantity': quantity} *)
      match products db !! product_id with
      | None => (db, IntegrityError)
      | Some _ =>
        let pk := fresh (dom (cart_items db)) in
        let cart_item :=
          {| CartItem.cart := cart; CartItem.product_id := product_id;
             CartItem.quantity := quantity |} in
        (set_cart_items (<[pk := cart_item]> (cart_items db)) db,
         Response (CartItemSerializer_data pk cart_item) HTTP_201_CREATED)
      end
    | [(pk, existing)] =>
      let cart_item :=
        CartItem.with_quantity (CartItem.quantity existing + quantity)
                               existing in
      match products db !! CartItem.product_id cart_item with
      | None => (db, DoesNotExist)
      | Some product =>
        if decide (CartItem.quantity cart_item
                   > Product.stock_quantity product)
        then (db, Response (error "Insufficient stock")
                           HTTP_400_BAD_REQUEST)
        else
          (set_cart_items (<[pk := cart_item]> (cart_items db)) db,
           Response (CartItemSerializer_data pk cart_item)
                    HTTP_201_CREATED)
      end
    | _ => (db, MultipleObjectsReturned)
    end
  end.

(** [update_item] and [remove_item] on a payload whose fields are
    integers; [Raw.update_item] and [Raw.remove_item] below read the
    payload as it arrives and agree with these on such payloads. *)
Definition update_item (db : DB) (user : User) (data : QueryDict)
  : DB * Outcome :=
  if decide (user_id user ∈ carts db) then
    let cart := user_id user in
    let item_id := data !! "item_id" in
    let quantity := default 1 (data !! "quantity") in
    if decide (quantity ≤ 0) then
      (db, Response (error "Quantity must be greater than 0")
                    HTTP_400_BAD_REQUEST)
    else
      match CartItem_get db cart item_id with
      | None => (db, Http404)
      | Some (pk, cart_item) =>
        match products db !! CartItem.product_id cart_item with
        | None => (db, DoesNotExist)
        | Some product =>
          if decide (quantity > Product.stock_quantity product) then
            (db, Response (error "Insufficient stock")
                          HTTP_400_BAD_REQUEST)
          else
            let cart_item := CartItem.with_quantity quantity cart_item in
            (set_cart_items (<[pk := cart_item]> (cart_items db)) db,
             Response (CartItemSerializer_data pk cart_item) HTTP_200_OK)
        end
      end
  else (db, Http404).

Definition remove_item (db : DB) (user : User) (data : QueryDict)
  : DB * Outcome :=
  if decide (user_id user ∈ carts db) then
    let cart := user_id user in
    let item_id := data !! "item_id" in
    match CartItem_get db cart item_id with
    | None => (db, Http404)
    | Some (pk, _) =>
      (set_cart_items (delete pk (cart_items db)) db,
       Response (message "Item removed from cart") HTTP_200_OK)
    end
  else (db, Http404).

(** [cart.items]: the rows of the cart, by pk. *)
Definition Cart_items (db : DB) (cart : Z) : gmap Z CartItem.t :=
  filter (λ kv, CartItem.cart kv.2 = cart) (cart_items db).

Definition clear (db : DB) (user : User) : DB * Outcome :=
  if decide (user_id user ∈ carts db) then
    let cart := user_id user in
    (set_cart_items
       (filter (λ kv, CartItem.cart kv.2 ≠ cart) (cart_items db)) db,
     Response (message "Cart cleared") HTTP_200_OK)
  else (db, Http404).
End views.
End CartViewSet.

(** ** Inventory Ledger *)

Module Ledger.
(** Modelled from the spec: the Inventory Ledger, which [orders/views.py]
    reaches only through [OrderCreateSerializer] ([orders/serializers.py]).
    [check] is the advisory read, [reserve] checks
    [available_stock >= quantity] and decrements or reports the product,
    the requested and the available quantity with no side effect, and
    [release] increments.  A product with no row has nothing available. *)
Definition check (ledger : gmap Z Product.t) (product_id quantity : Z)
  : bool :=
  match ledger !! product_id with
  | Some p => bool_decide (quantity ≤ Product.stock_quantity p)
  | None => false
  end.

(** Modelled from the spec: [reserve] of the Inventory Ledger. *)
Definition reserve (ledger : gmap Z Product.t) (product_id quantity : Z)
  : Z * Z * Z + gmap Z Product.t :=
  match ledger !! product_id with
  | Some p =>
    if decide (quantity ≤ Product.stock_quantity p) then
      inr (<[product_id :=
               Product.with_stock_quantity
                 (Product.stock_quantity p - quantity) p]> ledger)
    else inl (product_id, quantity, Product.stock_quantity p)
  | None => inl (product_id, quantity, 0)
  end.

(** Modelled from the spec: [release] of the Inventory Ledger. *)
Definition release (ledger : gmap Z Product.t) (product_id quantity : Z)
  : gmap Z Product.t :=
  alter (λ p, Product.with_stock_quantity
                (Product.stock_quantity p + quantity) p)
        product_id ledger.
End Ledger.

(** ** Order Factory *)

Module OrderFactory.
(** Modelled from the spec: the fixed order of reservation, ascending
    product identifier. *)
Definition by_product (a b : Z * CartItem.t) : Prop :=
  CartItem.product_id a.2 ≤ CartItem.product_id b.2.

Global Instance by_product_dec a b : Decision (by_product a b).
Proof. unfold by_product. apply _. Defined.

(** Modelled from the spec: step 1 of the Order Factory, the lines of the
    cart in the order they are reserved. *)
Definition cart_lines (db : DB) (cart : Z) : list (Z * CartItem.t) :=
  merge_sort by_product
    (map_to_list (filter (λ kv, CartItem.cart kv.2 = cart) (cart_items db))).

(** Modelled from the spec: step 3 of the Order Factory and the
    bookkeeping of step 4: reserve every line in turn, remembering what was
    reserved (latest first) and which lines failed. *)
Fixpoint reserve_all (ledger : gmap Z Product.t)
    (lines : list (Z * CartItem.t))
    (reserved : list (Z * Z)) (failed : list (Z * Z * Z))
  : gmap Z Product.t * list (Z * Z) * list (Z * Z * Z) :=
  match lines with
  | [] => (ledger, reserved, failed)
  | (_, it) :: rest =>
    match Ledger.reserve ledger (CartItem.product_id it)
                         (CartItem.quantity it) with
    | inr ledger' =>
      reserve_all ledger' rest
        ((CartItem.product_id it, CartItem.quantity it) :: reserved) failed
    | inl f => reserve_all ledger rest reserved (failed ++ [f])%list
    end
  end.

(** Modelled from the spec: the compensating rollback of step 4. *)
Definition release_all (ledger : gmap Z Product.t)
    (reserved : list (Z * Z)) : gmap Z Product.t :=
  foldl (λ m r, Ledger.release m r.1 r.2) ledger reserved.

(** Modelled from the spec: step 5, the immutable copy of one cart line
    at the current unit price. *)
Definition snapshot (ledger : gmap Z Product.t) (line : Z * CartItem.t)
  : option OrderLine.t :=
  p ← ledger !! CartItem.product_id line.2;
  Some {| OrderLine.product_id := CartItem.product_id line.2;
          OrderLine.product_name := Product.name p;
          OrderLine.unit_price := Product.price p;
          OrderLine.quantity := CartItem.quantity line.2 |}.

(** Modelled from the spec: the order total, the sum of
    [unit_price * quantity] over the lines. *)
Definition order_total (lines : list OrderLine.t) : Z :=
  foldr (λ l acc, OrderLine.unit_price l * OrderLine.quantity l + acc)
        0 lines.

(** Modelled from the spec: [OrderCreateSerializer.is_valid] and [.save]
    ([orders/serializers.py]), the Order Factory of the specification:
    load the cart and fail with [EmptyCart] if it has no lines; reserve
    every line in a fixed order; if any reservation fails, release what
    was reserved and fail with [InsufficientStock] naming every failed
    line, the cart untouched; otherwise snapshot the lines, compute the
    total, create the order in status [pending] and clear the cart. *)
Definition create_order (db : DB) (user : User)
  : DB * (Error + Z * Order.t) :=
  let lines := cart_lines db (user_id user) in
  match lines with
  | [] => (db, inl EmptyCart)
  | _ =>
    let '(ledger, reserved, failed) :=
      reserve_all (products db) lines [] [] in
    match failed with
    | [] =>
      let order_lines := omap (snapshot ledger) lines in
      let order :=
        {| Order.user := user_id user; Order.status := pending;
           Order.lines := order_lines;
           Order.total := order_total order_lines |} in
      let pk := fresh (dom (orders db)) in
      (set_orders (<[pk := order]> (orders db))
         (set_cart_items
            (filter (λ kv, CartItem.cart kv.2 ≠ user_id user)
                    (cart_items db))
            (set_products ledger db)),
       inr (pk, order))
    | _ =>
      (set_products (release_all ledger reserved) db,
       inl (InsufficientStock failed))
    end
  end.
(** Modelled from the spec: [OrderCreateSerializer] as the view calls it;
    the payload of an order request plays no part in the factory. *)
Definition OrderCreateSerializer_save (db : DB) (user : User) (data : unit)
  : DB * (Error + Z * Order.t) :=
  create_order db user.
End OrderFactory.

(** ** Order Lifecycle *)

Module Lifecycle.
(** Modelled from the spec: the status state machine that
    [OrderStatusUpdateSerializer] ([orders/serializers.py]) is to enforce:
    pending -> processing -> shipped -> delivered, and cancelled reachable
    from pending or processing; everything else is rejected. *)
Definition allowed (from to : Status) : bool :=
  match from, to with
  | pending, processing
  | processing, shipped
  | shipped, delivered
  | pending, cancelled
  | processing, cancelled => true
  | _, _ => false
  end.

(** Modelled from the spec: a transition request, rejected with
    [InvalidTransition] unless it is one of the permitted ones. *)
Definition transition (from to : Status) : Error + Status :=
  if allowed from to then inr to else inl InvalidTransition.

(** Modelled from the spec: [OrderStatusUpdateSerializer] bound to an
    order: validate the requested status against the current one and write
    it to the instance. *)
Definition OrderStatusUpdateSerializer_save (order : Order.t)
    (new_status : Status) : Error + Order.t :=
  match transition (Order.status order) new_status with
  | inr s => inr (Order.with_status s order)
  | inl e => inl e
  end.

(** Modelled from the spec: the status after a run of transition
    requests, rejected ones leaving it where it was. *)
Definition run (from : Status) (requests : list Status) : Status :=
  foldl (λ s to, match transition s to with inr s' => s' | inl _ => s end)
        from requests.
End Lifecycle.

(** ** OrderViewSet *)

Module OrderViewSet.
Section views.
Context {CreateData StatusData : Type}.

(** [OrderCreateSerializer(data=..., context={'request': request})]:
    [is_valid(raise_exception=True)] then [save()]. *)
Variable OrderCreateSerializer_save :
  DB → User → CreateData → DB * (Error + Z * Order.t).

(** [OrderStatusUpdateSerializer(order, data=..., partial=True)]:
    [is_valid(raise_exception=True)] then [save()] on the instance. *)
Variable OrderStatusUpdateSerializer_save :
  Order.t → StatusData → Error + Order.t.

Definition get_queryset (db : DB) (user : User) : gmap Z Order.t :=
  if is_admin user then orders db
  else filter (λ kv, Order.user kv.2 = user_id user) (orders db).

(** [self.get_object()]: the row of the queryset with the given pk. *)
Definition get_object (db : DB) (user : User) (pk : Z) : option Order.t :=
  get_queryset db user !! pk.

Definition create_order (db : DB) (user : User) (data : CreateData)
  : DB * Outcome :=
  match OrderCreateSerializer_save db user data with
  | (db', inl e) => (db', ValidationError e)
  | (db', inr (pk, order)) =>
    (db', Response (OrderSerializer_data pk order) HTTP_201_CREATED)
  end.

Definition update_status (db : DB) (user : User) (pk : Z)
    (data : StatusData) : DB * Outcome :=
  if negb (is_admin user) then
    (db, Response (error "Admin access required") HTTP_403_FORBIDDEN)
  else
    match get_object db user pk with
    | None => (db, Http404)
    | Some order =>
      match OrderStatusUpdateSerializer_save order data with
      | inl e => (db, ValidationError e)
      | inr order =>
        (set_orders (<[pk := order]> (orders db)) db,
         Response (OrderSerializer_data pk order) HTTP_200_OK)
      end
    end.

Definition my_orders (db : DB) (user : User) : gmap Z Order.t :=
  filter (λ kv, Order.user kv.2 = user_id user) (orders db).

Definition list (db : DB) (user : User) : gmap Z Order.t :=
  get_queryset db user.
End views.
End OrderViewSet.

(** ** Sample data

    A small shop used to run the handlers on concrete requests. *)

Definition alice : User := {| user_id := 1; is_admin := false |}.
Definition bob : User := {| user_id := 2; is_admin := false |}.
Definition root : User := {| user_id := 9; is_admin := true |}.

Definition widget : Product.t :=
  {| Product.name := "widget"; Product.price := 250;
     Product.stock_quantity := 5 |}.
Definition gadget : Product.t :=
  {| Product.name := "gadget"; Product.price := 1000;
     Product.stock_quantity := 2 |}.

Definition payload (product_id quantity : Z) : QueryDict :=
  <["product_id" := product_id]> (<["quantity" := quantity]> ∅).

Definition item_payload (item_id quantity : Z) : QueryDict :=
  <["item_id" := item_id]> (<["quantity" := quantity]> ∅).

(** Modelled from the spec: the validation layer in front of [add_item]
    ([CartItemSerializer], [orders/serializers.py]), which hands the core
    validated numeric inputs: both fields present, and the quantity a
    positive integer ([InvalidQuantity] otherwise). *)
Definition positive_quantity (_ : DB) (data : QueryDict) : Error + Z * Z :=
  match data !! "product_id", data !! "quantity" with
  | Some product_id, Some quantity =>
    if decide (0 < quantity) then inr (product_id, quantity)
    else inl InvalidQuantity
  | _, _ => inl InvalidQuantity
  end.

(** Alice has a cart holding three widgets; Bob has no cart yet. *)
Definition shop : DB :=
  {| products := <[1 := widget]> (<[2 := gadget]> ∅);
     carts := {[1]};
     cart_items :=
       <[10 := {| CartItem.cart := 1; CartItem.product_id := 1;
                  CartItem.quantity := 3 |}]> ∅;
     orders :=
       <[100 := {| Order.user := 1; Order.status := delivered;
                   Order.lines := []; Order.total := 0 |}]>
       (<[101 := {| Order.user := 2; Order.status := pending;
                    Order.lines := []; Order.total := 0 |}]> ∅) |}.

(** A shop with five widgets in stock and no cart yet. *)
Definition market : DB :=
  {| products := <[1 := widget]> ∅; carts := ∅;
     cart_items := ∅; orders := ∅ |}.

(** Alice and Bob each hold three widgets in their carts. *)
Definition rush : DB :=
  {| products := <[1 := widget]> ∅; carts := {[1; 2]};
     cart_items :=
       <[10 := {| CartItem.cart := 1; CartItem.product_id := 1;
                  CartItem.quantity := 3 |}]>
       (<[11 := {| CartItem.cart := 2; CartItem.product_id := 1;
                   CartItem.quantity := 3 |}]> ∅);
     orders := ∅ |}.

(** What a cart operation of [user] must leave alone: the lines of every
    other cart, the carts of every other user, the products and the orders. *)
Definition other_carts_untouched (user : User) (db db' : DB) : Prop :=
  (∀ pk it, CartItem.cart it ≠ user_id user →
            cart_items db' !! pk = Some it ↔ cart_items db !! pk = Some it)
  ∧ (∀ u, u ≠ user_id user → u ∈ carts db' ↔ u ∈ carts db)
  ∧ products db' = products db
  ∧ orders db' = orders db.

(** A cart holds at most one line per product (the pair of cart and
    product identifies a [CartItem]). *)
Definition unique_together (db : DB) (cart : Z) : Prop :=
  ∀ pk1 pk2 it1 it2,
    cart_items db !! pk1 = Some it1 → cart_items db !! pk2 = Some it2 →
    CartItem.cart it1 = cart → CartItem.cart it2 = cart →
    CartItem.product_id it1 = CartItem.product_id it2 → pk1 = pk2.



(** ** CartViewSet: queryset and retrieval *)

(** [CartViewSet.get_queryset]: [Cart.objects.filter(user=request.user)],
    the owners of the selected carts. *)
Definition CartViewSet_get_queryset (db : DB) (user : User) : gset Z :=
  filter (λ owner, owner = user_id user) (carts db).

(** [CartViewSet.retrieve]: the inherited handler fetches [get_object()],
    which gets or creates the caller's cart, and hands that cart (named
    here by its owner) to the serializer. *)
Definition CartViewSet_retrieve (db : DB) (user : User) : DB * Z :=
  let db := CartViewSet.get_object db user in
  (db, user_id user).

(** The requests a client can send to the cart endpoints, and a run of
    them by several users. *)
Inductive CartRequest :=
  | Retrieve
  | AddItem (data : QueryDict)
  | UpdateItem (data : QueryDict)
  | RemoveItem (data : QueryDict)
  | Clear.

Definition handle (validate : DB → QueryDict → Error + Z * Z) (db : DB)
    (call : User * CartRequest) : DB :=
  match call.2 with
  | Retrieve => (CartViewSet_retrieve db call.1).1
  | AddItem data => (CartViewSet.add_item validate db call.1 data).1
  | UpdateItem data => (CartViewSet.update_item db call.1 data).1
  | RemoveItem data => (CartViewSet.remove_item db call.1 data).1
  | Clear => (CartViewSet.clear db call.1).1
  end.

Definition handle_all (validate : DB → QueryDict → Error + Z * Z)
    (db : DB) (calls : list (User * CartRequest)) : DB :=
  foldl (handle validate) db calls.

(** ** products/permissions.py and products/views.py *)

Module Request.
(** What the product views read of a request: the HTTP method, the user
    ([None] for the anonymous user) and the query string. *)
Record t := { method : string; user : option User;
              query_params : gmap string string }.

(** [request.user.is_authenticated and request.user.is_admin]: the
    conjunction short-circuits, so [is_admin] is only read of an
    authenticated user. *)
Definition is_authenticated_admin (request : t) : bool :=
  match user request with
  | Some u => is_admin u
  | None => false
  end.

(** The same request with one query parameter set, or removed. *)
Definition with_param (key value : string) (request : t) : t :=
  {| method := method request; user := user request;
     query_params := <[key := value]> (query_params request) |}.

Definition without_param (key : string) (request : t) : t :=
  {| method := method request; user := user request;
     query_params := delete key (query_params request) |}.
End Request.

Module IsAdminOrReadOnly.
(** [rest_framework.permissions.SAFE_METHODS] *)
Definition SAFE_METHODS : list string := ["GET"; "HEAD"; "OPTIONS"].

Definition has_permission (request : Request.t) : bool :=
  if decide (Request.method request ∈ SAFE_METHODS) then true
  else Request.is_authenticated_admin request.
End IsAdminOrReadOnly.

Module CatalogProduct.
(** A [Product] row as [products/views.py] filters it: the price and stock
    quantity of [Product.t], and the [is_active] and [featured] flags. *)
Record t := { product : Product.t; is_active : bool; featured : bool }.

Definition price (p : t) : Z := Product.price (product p).
Definition stock_quantity (p : t) : Z := Product.stock_quantity (product p).
End CatalogProduct.

Module ProductViewSet.
(** What a product handler raises instead of answering, and what it
    answers: the queryset it hands to the paginator and the list
    serializer, or an error body with its status. *)
Inductive Raised :=
  | InvalidDecimal   (* a price bound that is not a decimal number *)
  | ValueError.      (* int() of a threshold that is not an integer *)

Inductive Answer :=
  | Products (data : gmap Z CatalogProduct.t)   (* Response(serializer.data) *)
  | ErrorResponse (msg : string) (status : Z)   (* Response({'error': msg}, status) *)
  | Raise (e : Raised).

(** Truth value of a query parameter: [None] and the empty string are
    false. *)
Definition truthy (value : option string) : bool :=
  match value with
  | Some s => bool_decide (s ≠ EmptyString)
  | None => false
  end.

Section views.
(** The conversion of a price filter value to the column's decimal type
    ([None] when it is refused), and Python's [int] on a string ([None]
    when it raises): both belong to the framework and the language. *)
Variable to_decimal : string → option Z.
Variable int : string → option Z.

Definition get_queryset (request : Request.t)
    (objects : gmap Z CatalogProduct.t)
  : Raised + gmap Z CatalogProduct.t :=
  let queryset := objects in
  let min_price := Request.query_params request !! "min_price" in
  let max_price := Request.query_params request !! "max_price" in
  match (if truthy min_price then
           match to_decimal (default EmptyString min_price) with
           | Some bound =>
             inr (filter (λ kv, bound ≤ CatalogProduct.price kv.2) queryset)
           | None => inl InvalidDecimal
           end
         else inr queryset) with
  | inl e => inl e
  | inr queryset =>
    match (if truthy max_price then
             match to_decimal (default EmptyString max_price) with
             | Some bound =>
               inr (filter (λ kv, CatalogProduct.price kv.2 ≤ bound)
                           queryset)
             | None => inl InvalidDecimal
             end
           else inr queryset) with
    | inl e => inl e
    | inr queryset =>
      let in_stock := Request.query_params request !! "in_stock" in
      let queryset :=
        if decide (in_stock = Some "true") then
          filter (λ kv, 0 < CatalogProduct.stock_quantity kv.2) queryset
        else if decide (in_stock = Some "false") then
          filter (λ kv, CatalogProduct.stock_quantity kv.2 = 0) queryset
        else queryset in
      let queryset :=
        if negb (Request.is_authenticated_admin request) then
          filter (λ kv, CatalogProduct.is_active kv.2 = true) queryset
        else queryset in
      inr queryset
    end
  end.

Definition featured (request : Request.t)
    (objects : gmap Z CatalogProduct.t) : Answer :=
  match get_queryset request objects with
  | inl e => Raise e
  | inr queryset =>
    Products (filter (λ kv, CatalogProduct.featured kv.2 = true
                            ∧ CatalogProduct.is_active kv.2 = true)
                     queryset)
  end.

Definition low_stock (request : Request.t)
    (objects : gmap Z CatalogProduct.t) : Answer :=
  if negb (Request.is_authenticated_admin request) then
    ErrorResponse "Admin access required" HTTP_403_FORBIDDEN
  else
    match (match Request.query_params request !! "threshold" with
           | Some s => int s
           | None => Some 10
           end) with
    | None => Raise ValueError
    | Some threshold =>
      match get_queryset request objects with
      | inl e => Raise e
      | inr queryset =>
        Products
          (filter (λ kv, CatalogProduct.stock_quantity kv.2 ≤ threshold
                         ∧ CatalogProduct.is_active kv.2 = true)
                  queryset)
      end
    end.
End views.
End ProductViewSet.

(** Sample catalogue: an active featured product, an inactive one, and an
    active one that is out of stock. *)
Definition catalogue : gmap Z CatalogProduct.t :=
  <[1 := {| CatalogProduct.product := widget;
            CatalogProduct.is_active := true;
            CatalogProduct.featured := true |}]>
  (<[2 := {| CatalogProduct.product := gadget;
             CatalogProduct.is_active := false;
             CatalogProduct.featured := true |}]>
   (<[3 := {| CatalogProduct.product :=
                {| Product.name := "gizmo"; Product.price := 700;
                   Product.stock_quantity := 0 |};
              CatalogProduct.is_active := true;
              CatalogProduct.featured := false |}]> ∅)).

(** A conversion that knows a few numerals, for running the handlers. *)
Definition numeral (s : string) : option Z :=
  if decide (s = "0") then Some 0
  else if decide (s = "3") then Some 3
  else if decide (s = "500") then Some 500
  else None.

Definition GET (user : option User) (query_params : gmap string string)
  : Request.t :=
  {| Request.method := "GET"; Request.user := user;
     Request.query_params := query_params |}.

(** ** The cart endpoints on the payload as it arrives

    [update_item] and [remove_item] read [request.data] themselves, with no
    serializer in between, so a field may hold any value the parser
    produced.  An integer is [VInt]; every other value (a string, as in
    every form-encoded request, a number with a fraction, [null], ...) is a
    [VOther], and what Python and the object-relational mapper make of it
    at the four places the handlers use it is given by [Semantics].
    [CartViewSet.update_item] and [CartViewSet.remove_item] above are these
    handlers on payloads whose fields are integers. *)

Module Raw.
Inductive Exception := TypeError | ValueError.

(** What the mapper makes of a value given as [id=]: a key to look up, a
    value no row can have, or a refusal. *)
Inductive Lookup :=
  | Key (pk : Z)
  | NoRow
  | Refused (e : Exception).

Inductive Value (Other : Type) :=
  | VInt (z : Z)
  | VOther (v : Other).
Arguments VInt {Other} z.
Arguments VOther {Other} v.

Record Semantics (Other : Type) := {
  le_zero : Other → option bool;
    (* [v <= 0]; [None] when the comparison raises TypeError *)
  gt : Other → Z → option bool;
    (* [v > n]; [None] when the comparison raises TypeError *)
  as_pk : Other → Lookup;
    (* the value as [id=] of a query *)
  as_quantity : Other → Exception + Z
    (* the value as written to the integer column by [save()] *)
}.
Arguments le_zero {Other} s v.
Arguments gt {Other} s v n.
Arguments as_pk {Other} s v.
Arguments as_quantity {Other} s v.

(** What a handler does with a raw payload: an outcome of the kinds above,
    the cart item serialized with the quantity as it was sent, or an
    exception that leaves the handler. *)
Inductive Result (Other : Type) :=
  | Answer (o : Outcome)
  | AnswerItem (pk : Z) (stored : CartItem.t) (quantity : Other) (status : Z)
  | Raise (e : Exception).
Arguments Answer {Other} o.
Arguments AnswerItem {Other} pk stored quantity status.
Arguments Raise {Other} e.

Section views.
Context {Other : Type}.
Variable python : Semantics Other.

(** [quantity <= 0] *)
Definition le_0 (quantity : Value Other) : option bool :=
  match quantity with
  | VInt z => Some (bool_decide (z ≤ 0))
  | VOther v => le_zero python v
  end.

(** [quantity > stock_quantity] *)
Definition greater (quantity : Value Other) (n : Z) : option bool :=
  match quantity with
  | VInt z => Some (bool_decide (z > n))
  | VOther v => gt python v n
  end.

(** [CartItem.objects.get(cart=cart, id=item_id)] inside
    [get_object_or_404], which turns a missing row into 404 and lets every
    other exception through; [item_id] is [None] when the payload has no
    such key, and [id=None] matches no row. *)
Definition get_cart_item (db : DB) (cart : Z) (item_id : option (Value Other))
  : Exception + option (Z * CartItem.t) :=
  match item_id with
  | None => inr None
  | Some (VInt pk) => inr (CartViewSet.CartItem_get db cart (Some pk))
  | Some (VOther v) =>
    match as_pk python v with
    | Key pk => inr (CartViewSet.CartItem_get db cart (Some pk))
    | NoRow => inr None
    | Refused e => inl e
    end
  end.

Definition update_item (db : DB) (user : User)
    (data : gmap string (Value Other)) : DB * Result Other :=
  if decide (user_id user ∈ carts db) then
    let cart := user_id user in
    let item_id := data !! "item_id" in
    let quantity := default (VInt 1) (data !! "quantity") in
    match le_0 quantity with
    | None => (db, Raise TypeError)
    | Some true =>
      (db, Answer (Response (error "Quantity must be greater than 0")
                            HTTP_400_BAD_REQUEST))
    | Some false =>
      match get_cart_item db cart item_id with
      | inl e => (db, Raise e)
      | inr None => (db, Answer Http404)
      | inr (Some (pk, cart_item)) =>
        match products db !! CartItem.product_id cart_item with
        | None => (db, Answer DoesNotExist)
        | Some product =>
          match greater quantity (Product.stock_quantity product) with
          | None => (db, Raise TypeError)
          | Some true =>
            (db, Answer (Response (error "Insufficient stock")
                                  HTTP_400_BAD_REQUEST))
          | Some false =>
            (* cart_item.quantity = quantity; cart_item.save() *)
            match quantity with
            | VInt z =>
              let cart_item := CartItem.with_quantity z cart_item in
              (set_cart_items (<[pk := cart_item]> (cart_items db)) db,
               Answer (Response (CartItemSerializer_data pk cart_item)
                                HTTP_200_OK))
            | VOther v =>
              match as_quantity python v with
              | inl e => (db, Raise e)
              | inr z =>
                let stored := CartItem.with_quantity z cart_item in
                (set_cart_items (<[pk := stored]> (cart_items db)) db,
                 AnswerItem pk stored v HTTP_200_OK)
              end
            end
          end
        end
      end
    end
  else (db, Answer Http404).

Definition remove_item (db : DB) (user : User)
    (data : gmap string (Value Other)) : DB * Result Other :=
  if decide (user_id user ∈ carts db) then
    let cart := user_id user in
    let item_id := data !! "item_id" in
    match get_cart_item db cart item_id with
    | inl e => (db, Raise e)
    | inr None => (db, Answer Http404)
    | inr (Some (pk, _)) =>
      (set_cart_items (delete pk (cart_items db)) db,
       Answer (Response (message "Item removed from cart") HTTP_200_OK))
    end
  else (db, Answer Http404).
End views.
End Raw.

(** Sample values that are not integers: a text, and the number one half,
    with what Python makes of them ([int] truncates, a text does not
    compare with a number, and only a numeral is accepted as a key). *)
Inductive Sample := text (s : string) | half.

Definition sample : Raw.Semantics Sample :=
  {| Raw.le_zero v := match v with text _ => None | half => Some false end;
     Raw.gt v n :=
       match v with text _ => None | half => Some (bool_decide (n ≤ 0)) end;
     Raw.as_pk v :=
       match v with
       | text s => match numeral s with
                   | Some pk => Raw.Key pk
                   | None => Raw.Refused Raw.ValueError
                   end
       | half => Raw.Key 0
       end;
     Raw.as_quantity v :=
       match v with
       | text s => match numeral s with
                   | Some z => inr z
                   | None => inl Raw.ValueError
                   end
       | half => inr 0
       end |}.

Definition raw_payload (item_id quantity : Raw.Value Sample)
  : gmap string (Raw.Value Sample) :=
  <["item_id" := item_id]> (<["quantity" := quantity]> ∅).

(** Modelled from the spec: the validation in front of [add_item]
    ([CartItemSerializer], [orders/serializers.py]) together with the
    advisory [check(product_id, quantity)] the specification requires
    before a line is created: the quantity must be a positive integer
    ([InvalidQuantity] otherwise) and within the product's available stock
    ([InsufficientStock], naming the product, the requested and the
    available quantity, otherwise). *)
Definition CartItemSerializer_is_valid (db : DB) (data : QueryDict)
  : Error + Z * Z :=
  match positive_quantity db data with
  | inl e => inl e
  | inr (product_id, quantity) =>
    if Ledger.check (products db) product_id quantity then
      inr (product_id, quantity)
    else
      inl (InsufficientStock
             [(product_id, quantity,
               default 0 (Product.stock_quantity <$> products db !! product_id))])
  end.

(** * Properties *)

Lemma set_products_id db : set_products (products db) db = db.
Proof. by destruct db. Qed.

(** ** Order status updates and listing *)

(** C8: an [update_status] call by a caller whose [is_admin] flag is false
    answers 403 "Admin access required" and leaves the database, hence the
    order's status, unchanged, whatever the order, the requested status and
    the serializer: the transition logic is never consulted. *)
Theorem update_status_requires_admin {StatusData : Type}
    (save : Order.t → StatusData → Error + Order.t)
    (db : DB) (user : User) (pk : Z) (data : StatusData) :
  is_admin user = false →
  OrderViewSet.update_status save db user pk data
  = (db, Response (error "Admin access required") HTTP_403_FORBIDDEN)
  ∧ orders (OrderViewSet.update_status save db user pk data).1 !! pk
    = orders db !! pk
  ∧ ∀ save', OrderViewSet.update_status save' db user pk data
             = OrderViewSet.update_status save db user pk data.
Proof.
  intros Hadmin. unfold OrderViewSet.update_status.
  rewrite Hadmin. simpl. done.
Qed.

Lemma update_status_requires_admin_witness :
  is_admin bob = false
  ∧ OrderViewSet.update_status Lifecycle.OrderStatusUpdateSerializer_save
      shop bob 101 processing
    = (shop, Response (error "Admin access required") HTTP_403_FORBIDDEN).
Proof.
  split; [reflexivity |].
  apply (update_status_requires_admin
           Lifecycle.OrderStatusUpdateSerializer_save shop bob 101 processing).
  reflexivity.
Defined.

(** C9: listing orders for a caller whose [is_admin] flag is false returns
    exactly the orders owned by that caller, and for an administrator all
    orders; a non-admin listing never holds another user's order. *)
Theorem list_orders_scope (db : DB) (user : User) :
  if is_admin user then OrderViewSet.list db user = orders db
  else
    (∀ pk order,
        OrderViewSet.list db user !! pk = Some order
        ↔ orders db !! pk = Some order ∧ Order.user order = user_id user)
    ∧ map_Forall (λ _ order, Order.user order = user_id user)
                 (OrderViewSet.list db user).
Proof.
  unfold OrderViewSet.list, OrderViewSet.get_queryset.
  destruct (is_admin user); [done |].
  split.
  - intros pk order. by rewrite map_lookup_filter_Some.
  - intros pk order Hin. by apply map_lookup_filter_Some in Hin as [_ ?].
Qed.

(** ** Order lifecycle *)

(** C7: the status state machine permits exactly pending -> processing ->
    shipped -> delivered plus pending -> cancelled and processing ->
    cancelled; every other transition, and so every transition out of
    delivered or cancelled, fails with [InvalidTransition]. *)
Theorem lifecycle_transitions (from to : Status) :
  (Lifecycle.transition from to = inr to
   ↔ (from, to) ∈ [(pending, processing); (processing, shipped);
                   (shipped, delivered); (pending, cancelled);
                   (processing, cancelled)])
  ∧ (Lifecycle.transition from to = inr to
     ∨ Lifecycle.transition from to = inl InvalidTransition)
  ∧ Lifecycle.transition delivered to = inl InvalidTransition
  ∧ Lifecycle.transition cancelled to = inl InvalidTransition
  ∧ (∀ requests, Lifecycle.run delivered requests = delivered
                 ∧ Lifecycle.run cancelled requests = cancelled)
  ∧ (∀ db user pk order,
        is_admin user = true → orders db !! pk = Some order →
        Order.status order = from →
        OrderViewSet.update_status Lifecycle.OrderStatusUpdateSerializer_save
          db user pk to
        = if Lifecycle.allowed from to then
            (set_orders (<[pk := Order.with_status to order]> (orders db)) db,
             Response (OrderSerializer_data pk (Order.with_status to order))
                      HTTP_200_OK)
          else (db, ValidationError InvalidTransition)).
Proof.
  split_and!.
  - split.
    + destruct from, to; intros H; try discriminate H;
        repeat first [ by apply list_elem_of_here | apply list_elem_of_further ].
    + intros H. repeat (apply elem_of_cons in H as [H | H]; [by inversion H |]).
      by apply elem_of_nil in H.
  - destruct from, to; auto.
  - by destruct to.
  - by destruct to.
  - intros requests. split.
    + induction requests as [| [] requests IH]; done.
    + induction requests as [| [] requests IH]; done.
  - intros db user pk order Hadmin Hpk <-.
    unfold OrderViewSet.update_status, OrderViewSet.get_object,
      OrderViewSet.get_queryset,
      Lifecycle.OrderStatusUpdateSerializer_save, Lifecycle.transition.
    rewrite Hadmin. simpl. rewrite Hpk.
    by destruct (Lifecycle.allowed _ _).
Qed.

Lemma lifecycle_transitions_witness :
  OrderViewSet.update_status Lifecycle.OrderStatusUpdateSerializer_save
    shop root 100 cancelled
  = (shop, ValidationError InvalidTransition)
  ∧ (OrderViewSet.update_status Lifecycle.OrderStatusUpdateSerializer_save
       shop root 101 processing).2
    = Response (OrderSerializer_data 101
                  {| Order.user := 2; Order.status := processing;
                     Order.lines := []; Order.total := 0 |})
               HTTP_200_OK.
Proof.
  split.
  - destruct (lifecycle_transitions delivered cancelled)
      as (_ & _ & _ & _ & _ & H).
    by rewrite (H shop root 100 _ eq_refl eq_refl eq_refl).
  - destruct (lifecycle_transitions pending processing)
      as (_ & _ & _ & _ & _ & H).
    by rewrite (H shop root 101 _ eq_refl eq_refl eq_refl).
Defined.

(** ** Cart updates *)

(** C10: when [update_item] is called without a quantity in the payload the
    quantity defaults to 1: the call behaves as with [quantity = 1], is
    never rejected as an invalid quantity, and on success the stored line
    quantity is 1 whatever it was before. *)
Theorem update_item_default_quantity (db : DB) (user : User)
    (data : QueryDict) :
  data !! "quantity" = None →
  CartViewSet.update_item db user data
  = CartViewSet.update_item db user (<["quantity" := 1]> data)
  ∧ (CartViewSet.update_item db user data).2
    ≠ Response (error "Quantity must be greater than 0") HTTP_400_BAD_REQUEST
  ∧ ∀ pk it,
      (CartViewSet.update_item db user data).2
      = Response (CartItemSerializer_data pk it) HTTP_200_OK →
      CartItem.quantity it = 1
      ∧ cart_items (CartViewSet.update_item db user data).1 !! pk = Some it.
Proof.
  intros Hq. unfold CartViewSet.update_item.
  rewrite Hq, lookup_insert_eq, lookup_insert_ne by done. simpl.
  split; [done |].
  destruct (decide (user_id user ∈ carts db)); [| by split].
  destruct (decide (1 ≤ 0)); [lia |].
  destruct (CartViewSet.CartItem_get _ _ _) as [[pk it] |]; [| by split].
  destruct (products db !! _) as [product |]; [| by split].
  destruct (decide (1 > _)); [by split |].
  split; [done |]. simpl. intros pk' it' [= <- <-].
  by rewrite lookup_insert_eq.
Qed.

Lemma update_item_default_quantity_witness :
  (<["item_id" := 10]> ∅ : QueryDict) !! "quantity" = None
  ∧ ∃ db', CartViewSet.update_item shop alice (<["item_id" := 10]> ∅)
           = (db', Response
                     (CartItemSerializer_data 10
                        {| CartItem.cart := 1; CartItem.product_id := 1;
                           CartItem.quantity := 1 |})
                     HTTP_200_OK).
Proof.
  assert (H : (<["item_id" := 10]> ∅ : QueryDict) !! "quantity" = None)
    by (vm_compute; reflexivity).
  split; [exact H |].
  destruct (update_item_default_quantity shop alice _ H) as [-> _].
  eexists. vm_compute. reflexivity.
Defined.

(** C5, as amended: for a caller who has a cart, whatever lines it holds,
    [clear] succeeds and leaves the cart with no lines, and a second
    [clear] in a row succeeds again and changes nothing. *)
Theorem clear_idempotent (db : DB) (user : User) :
  user_id user ∈ carts db →
  let first := CartViewSet.clear db user in
  let second := CartViewSet.clear first.1 user in
  first.2 = Response (message "Cart cleared") HTTP_200_OK
  ∧ CartViewSet.Cart_items first.1 (user_id user) = ∅
  ∧ second = (first.1, Response (message "Cart cleared") HTTP_200_OK)
  ∧ CartViewSet.Cart_items second.1 (user_id user) = ∅.
Proof.
  intros Hcart. simpl. unfold CartViewSet.clear.
  destruct (decide (user_id user ∈ carts db)); [| done]. simpl.
  destruct (decide (user_id user ∈ carts db)); [| done]. simpl.
  assert (Hempty : ∀ m : gmap Z CartItem.t,
    filter (λ kv, CartItem.cart kv.2 = user_id user)
      (filter (λ kv, CartItem.cart kv.2 ≠ user_id user) m) = ∅).
  { intros m. apply map_empty. intros pk.
    apply map_lookup_filter_None. right. intros it Hin.
    by apply map_lookup_filter_Some in Hin as [_ ?]. }
  assert (Hagain : ∀ m : gmap Z CartItem.t,
    filter (λ kv, CartItem.cart kv.2 ≠ user_id user)
      (filter (λ kv, CartItem.cart kv.2 ≠ user_id user) m)
    = filter (λ kv, CartItem.cart kv.2 ≠ user_id user) m).
  { intros m. apply map_filter_id. intros pk it Hin.
    by apply map_lookup_filter_Some in Hin as [_ ?]. }
  unfold CartViewSet.Cart_items, set_cart_items. simpl.
  rewrite Hagain, Hempty. done.
Qed.

Lemma clear_idempotent_witness :
  user_id alice ∈ carts shop
  ∧ (CartViewSet.clear shop alice).2
    = Response (message "Cart cleared") HTTP_200_OK
  ∧ (CartViewSet.clear (CartViewSet.clear shop alice).1 alice).2
    = Response (message "Cart cleared") HTTP_200_OK.
Proof.
  assert (H : user_id alice ∈ carts shop) by (vm_compute; reflexivity).
  split; [exact H |].
  destruct (clear_idempotent shop alice H) as (H1 & _ & H2 & _).
  split; [exact H1 |]. by rewrite H2.
Defined.

(** C5, as stated for every cart state, fails for a caller whose cart was
    never created: the first [clear] does not succeed, it is answered
    404. *)
Lemma clear_before_first_access_counterexample :
  (user_id bob ∉ carts shop)
  ∧ CartViewSet.clear shop bob = (shop, Http404)
  ∧ (CartViewSet.clear shop bob).2
    ≠ Response (message "Cart cleared") HTTP_200_OK.
Proof.
  split_and!; [vm_compute; discriminate | reflexivity | discriminate].
Qed.

(** Queries on the [CartItem] table. *)
Lemma CartItem_filter_elem (db : DB) (cart product_id pk : Z)
    (it : CartItem.t) :
  (pk, it) ∈ CartViewSet.CartItem_filter db cart product_id
  ↔ cart_items db !! pk = Some it
    ∧ CartItem.cart it = cart ∧ CartItem.product_id it = product_id.
Proof.
  unfold CartViewSet.CartItem_filter.
  by rewrite elem_of_map_to_list, map_lookup_filter_Some.
Qed.

Lemma CartItem_get_Some (db : DB) (cart : Z) (item_id : option Z) (pk : Z)
    (it : CartItem.t) :
  CartViewSet.CartItem_get db cart item_id = Some (pk, it)
  ↔ item_id = Some pk ∧ cart_items db !! pk = Some it
    ∧ CartItem.cart it = cart.
Proof.
  unfold CartViewSet.CartItem_get.
  destruct item_id as [pk' |]; simpl.
  2:{ split; [done | by intros [? _]]. }
  destruct (cart_items db !! pk') as [it' |] eqn:Hpk; simpl.
  2:{ split; [done | intros ([= ->] & ? & _); congruence]. }
  destruct (decide (CartItem.cart it' = cart)) as [Hc | Hc].
  - split; [by intros [= <- <-] |].
    intros ([= ->] & H & _). congruence.
  - split; [done |].
    intros ([= ->] & H & ?). congruence.
Qed.

(** On a payload whose two fields are integers (or absent) the handlers
    on the payload as it arrives are the handlers on integers. *)
Lemma get_cart_item_integer {Other : Type} (python : Raw.Semantics Other)
    (db : DB) (cart : Z) (item_id : option Z) :
  Raw.get_cart_item python db cart (Raw.VInt <$> item_id)
  = inr (CartViewSet.CartItem_get db cart item_id).
Proof. by destruct item_id. Qed.

Lemma update_item_on_integers {Other : Type} (python : Raw.Semantics Other)
    (db : DB) (user : User) (data : gmap string (Raw.Value Other))
    (data' : QueryDict) :
  data !! "item_id" = Raw.VInt <$> data' !! "item_id" →
  data !! "quantity" = Raw.VInt <$> data' !! "quantity" →
  Raw.update_item python db user data
  = ((CartViewSet.update_item db user data').1,
     Raw.Answer (CartViewSet.update_item db user data').2).
Proof.
  intros Hid Hq. unfold Raw.update_item, CartViewSet.update_item.
  rewrite Hid, Hq, get_cart_item_integer.
  destruct (decide (user_id user ∈ carts db)); [| done].
  assert (default (Raw.VInt 1) (Raw.VInt <$> data' !! "quantity")
          = Raw.VInt (Other := Other) (default 1 (data' !! "quantity")))
    as -> by (by destruct (data' !! "quantity")).
  simpl. destruct (decide (default 1 (data' !! "quantity") ≤ 0)) as [Hle | Hle].
  { by rewrite bool_decide_eq_true_2. }
  rewrite bool_decide_eq_false_2 by done.
  destruct (CartViewSet.CartItem_get _ _ _) as [[pk it] |]; [| done].
  destruct (products db !! _) as [product |]; [| done].
  destruct (decide (default 1 (data' !! "quantity")
                    > Product.stock_quantity product)) as [Hgt | Hgt].
  - by rewrite bool_decide_eq_true_2.
  - by rewrite bool_decide_eq_false_2.
Qed.

Lemma remove_item_on_integers {Other : Type} (python : Raw.Semantics Other)
    (db : DB) (user : User) (data : gmap string (Raw.Value Other))
    (data' : QueryDict) :
  data !! "item_id" = Raw.VInt <$> data' !! "item_id" →
  Raw.remove_item python db user data
  = ((CartViewSet.remove_item db user data').1,
     Raw.Answer (CartViewSet.remove_item db user data').2).
Proof.
  intros Hid. unfold Raw.remove_item, CartViewSet.remove_item.
  rewrite Hid, get_cart_item_integer.
  destruct (decide (user_id user ∈ carts db)); [| done].
  by destruct (CartViewSet.CartItem_get _ _ _) as [[pk it] |].
Qed.

(** C4, as amended: for a caller who has a cart and a payload whose item
    identifier and quantity are integers (the quantity may be absent),
    [update_item] checks in this order.  It answers 400 "Quantity must be
    greater than 0" exactly when the quantity is not positive; otherwise
    404 exactly when the item is not a line of the caller's cart; otherwise
    400 "Insufficient stock" exactly when the quantity exceeds the
    product's stock; otherwise it succeeds and replaces the stored quantity
    with the requested one.  On any failure the database is unchanged. *)
Theorem update_item_outcomes {Other : Type} (python : Raw.Semantics Other)
    (db : DB) (user : User) (data : gmap string (Raw.Value Other))
    (item_id quantity : option Z) :
  user_id user ∈ carts db →
  data !! "item_id" = Raw.VInt <$> item_id →
  data !! "quantity" = Raw.VInt <$> quantity →
  let requested := default 1 quantity in
  let found := CartViewSet.CartItem_get db (user_id user) item_id in
  let r := Raw.update_item python db user data in
  (r.2 = Raw.Answer (Response (error "Quantity must be greater than 0")
                              HTTP_400_BAD_REQUEST)
   ↔ requested ≤ 0)
  ∧ (r.2 = Raw.Answer Http404 ↔ 0 < requested ∧ found = None)
  ∧ (r.2 = Raw.Answer (Response (error "Insufficient stock")
                                HTTP_400_BAD_REQUEST)
     ↔ 0 < requested
       ∧ ∃ pk it product,
           found = Some (pk, it)
           ∧ products db !! CartItem.product_id it = Some product
           ∧ requested > Product.stock_quantity product)
  ∧ (∀ pk it product,
        0 < requested → found = Some (pk, it) →
        products db !! CartItem.product_id it = Some product →
        requested ≤ Product.stock_quantity product →
        r = (set_cart_items
               (<[pk := CartItem.with_quantity requested it]> (cart_items db))
               db,
             Raw.Answer
               (Response
                  (CartItemSerializer_data pk
                     (CartItem.with_quantity requested it))
                  HTTP_200_OK)))
  ∧ ((∀ pk it, r.2 ≠ Raw.Answer
                       (Response (CartItemSerializer_data pk it)
                                 HTTP_200_OK)) →
     r.1 = db).
Proof.
  intros Hcart Hid Hq requested found r. subst r. unfold Raw.update_item.
  rewrite Hid, Hq, get_cart_item_integer. fold found.
  destruct (decide (user_id user ∈ carts db)); [| done].
  assert (default (Raw.VInt 1) (Raw.VInt <$> quantity)
          = Raw.VInt (Other := Other) requested)
    as -> by (by destruct quantity).
  simpl. destruct (decide (requested ≤ 0)) as [Hle | Hle].
  { rewrite bool_decide_eq_true_2 by done. simpl. split_and!.
    - done.
    - split; [discriminate | intros [? _]; lia].
    - split; [discriminate | intros [? _]; lia].
    - intros; lia.
    - done. }
  rewrite bool_decide_eq_false_2 by done.
  destruct found as [[pk it] |] eqn:Hfound; simpl.
  2:{ split_and!.
    - split; [discriminate | done].
    - split; [intros _; split; [lia | done] | done].
    - split; [discriminate | intros [_ (? & ? & ? & ? & _)]; discriminate].
    - intros; discriminate.
    - done. }
  destruct (products db !! CartItem.product_id it) as [product |] eqn:Hp;
    simpl.
  2:{ split_and!.
    - split; [discriminate | done].
    - split; [discriminate | intros [_ ?]; discriminate].
    - split; [discriminate |].
      intros [_ (? & ? & ? & [= <- <-] & Hp' & _)]. congruence.
    - intros ? ? ? _ [= <- <-] Hp'. congruence.
    - done. }
  destruct (decide (requested > Product.stock_quantity product)) as [Hs | Hs].
  { rewrite bool_decide_eq_true_2 by done. simpl. split_and!.
    - split; [discriminate | done].
    - split; [discriminate | intros [_ ?]; discriminate].
    - split; [intros _ | done]. split; [lia |]. by exists pk, it, product.
    - intros ? ? product' _ [= <- <-] Hp'.
      assert (product' = product) as -> by congruence. lia.
    - done. }
  rewrite bool_decide_eq_false_2 by done. simpl. split_and!.
  - split; [discriminate | done].
  - split; [discriminate | intros [_ ?]; discriminate].
  - split; [discriminate |].
    intros [_ (? & ? & product' & [= <- <-] & Hp' & ?)].
    assert (product' = product) as -> by congruence. lia.
  - by intros ? ? ? _ [= <- <-] _ _.
  - intros H. by destruct (H pk (CartItem.with_quantity requested it)).
Qed.

Lemma update_item_outcomes_witness :
  user_id alice ∈ carts shop
  ∧ Raw.update_item sample shop alice
      (raw_payload (Raw.VInt 10) (Raw.VInt 5))
    = (set_cart_items
         (<[10 := {| CartItem.cart := 1; CartItem.product_id := 1;
                     CartItem.quantity := 5 |}]> (cart_items shop))
         shop,
       Raw.Answer
         (Response
            (CartItemSerializer_data 10
               {| CartItem.cart := 1; CartItem.product_id := 1;
                  CartItem.quantity := 5 |})
            HTTP_200_OK)).
Proof.
  assert (H : user_id alice ∈ carts shop) by (vm_compute; reflexivity).
  split; [exact H |].
  destruct (update_item_outcomes sample shop alice
              (raw_payload (Raw.VInt 10) (Raw.VInt 5)) (Some 10) (Some 5) H)
    as (_ & _ & _ & Hok & _); [vm_compute; reflexivity .. |].
  rewrite (Hok 10 {| CartItem.cart := 1; CartItem.product_id := 1;
                     CartItem.quantity := 3 |} widget);
    vm_compute; try reflexivity; discriminate.
Defined.

(** What the restriction to integers leaves out, on the sample values: a
    quantity sent as text does not compare with [0] and the handler raises;
    one half passes both comparisons, is answered 200 and is stored as [0];
    an item identifier that is not a number is refused by the query. *)
Example update_item_other_values :
  Raw.update_item sample shop alice
    (raw_payload (Raw.VInt 10) (Raw.VOther (text "3")))
  = (shop, Raw.Raise Raw.TypeError)
  ∧ (Raw.update_item sample shop alice
       (raw_payload (Raw.VInt 10) (Raw.VOther half))).2
    = Raw.AnswerItem 10
        {| CartItem.cart := 1; CartItem.product_id := 1;
           CartItem.quantity := 0 |}
        half HTTP_200_OK
  ∧ Raw.update_item sample shop alice
      (raw_payload (Raw.VOther (text "ten")) (Raw.VInt 1))
    = (shop, Raw.Raise Raw.ValueError)
  ∧ Raw.remove_item sample shop alice
      (raw_payload (Raw.VOther (text "ten")) (Raw.VInt 1))
    = (shop, Raw.Raise Raw.ValueError).
Proof. vm_compute. repeat split. Qed.

(** C4, as stated, fails: the checks are ordered, so a request with a
    non-positive quantity for an item that is not in the caller's cart is
    answered as an invalid quantity, not as a missing item. *)
Lemma update_item_not_found_counterexample :
  ¬ ((CartViewSet.update_item shop alice (item_payload 99 0)).2 = Http404
     ↔ CartViewSet.CartItem_get shop (user_id alice)
         (item_payload 99 0 !! "item_id") = None).
Proof.
  intros [_ H].
  assert (Hmissing : CartViewSet.CartItem_get shop (user_id alice)
                       (item_payload 99 0 !! "item_id") = None)
    by (vm_compute; reflexivity).
  specialize (H Hmissing). vm_compute in H. discriminate H.
Qed.

(** ** Scope of the cart operations *)

Lemma Cart_get_or_create_db (db : DB) (user : User) :
  (CartViewSet.Cart_get_or_create db user).1
  = set_carts ({[user_id user]} ∪ carts db) db.
Proof.
  unfold CartViewSet.Cart_get_or_create.
  destruct (decide (user_id user ∈ carts db)) as [Hin | Hin]; [| done].
  simpl. destruct db as [ps cs its os]. unfold set_carts. simpl in *.
  f_equal. symmetry. apply subseteq_union_1_L.
  by apply singleton_subseteq_l.
Qed.

Lemma insert_own_line (m : gmap Z CartItem.t) (cart pk : Z)
    (new : CartItem.t) :
  CartItem.cart new = cart →
  (∀ old, m !! pk = Some old → CartItem.cart old = cart) →
  ∀ pk' it, CartItem.cart it ≠ cart →
            <[pk := new]> m !! pk' = Some it ↔ m !! pk' = Some it.
Proof.
  intros Hnew Hold pk' it Hit.
  destruct (decide (pk = pk')) as [<- | Hne].
  - rewrite lookup_insert_eq. split.
    + intros [= <-]. done.
    + intros Hpk. by apply Hold in Hpk.
  - by rewrite lookup_insert_ne.
Qed.

Lemma delete_own_line (m : gmap Z CartItem.t) (cart pk : Z) :
  (∀ old, m !! pk = Some old → CartItem.cart old = cart) →
  ∀ pk' it, CartItem.cart it ≠ cart →
            delete pk m !! pk' = Some it ↔ m !! pk' = Some it.
Proof.
  intros Hold pk' it Hit.
  destruct (decide (pk = pk')) as [<- | Hne].
  - rewrite lookup_delete_eq. split; [done |].
    intros Hpk. by apply Hold in Hpk.
  - by rewrite lookup_delete_ne.
Qed.

Lemma other_carts_untouched_refl (user : User) (db : DB) :
  other_carts_untouched user db db.
Proof. by repeat split. Qed.

Lemma other_carts_untouched_get_object (user : User) (db : DB) :
  other_carts_untouched user db (CartViewSet.get_object db user).
Proof.
  unfold CartViewSet.get_object. rewrite Cart_get_or_create_db.
  repeat split; simpl; try done.
  - rewrite elem_of_union, elem_of_singleton. by intros [? | ?].
  - apply elem_of_union_r.
Qed.

Lemma other_carts_untouched_items (user : User) (db db1 : DB)
    (items : gmap Z CartItem.t) :
  other_carts_untouched user db db1 →
  (∀ pk it, CartItem.cart it ≠ user_id user →
            items !! pk = Some it ↔ cart_items db1 !! pk = Some it) →
  other_carts_untouched user db (set_cart_items items db1).
Proof.
  intros (Hitems & Hcarts & Hproducts & Horders) H.
  repeat split; simpl; try done.
  - intros ?. apply Hitems; [done |]. by apply H.
  - intros ?. apply H; [done |]. by apply Hitems.
  - by apply Hcarts.
  - by apply Hcarts.
Qed.

Lemma add_item_scope validate (db : DB) (user : User) (data : QueryDict) :
  other_carts_untouched user db (CartViewSet.add_item validate db user data).1.
Proof.
  pose proof (other_carts_untouched_get_object user db) as Hdb1.
  unfold CartViewSet.add_item, CartViewSet.get_object in *.
  destruct (CartViewSet.Cart_get_or_create db user) as [db1 created].
  simpl in Hdb1.
  destruct (validate db1 data) as [e | [product_id quantity]]; [done |].
  destruct (CartViewSet.CartItem_filter db1 (user_id user) product_id)
    as [| [pk existing] [| ? ?]] eqn:Hfilter; [| | done].
  - destruct (products db1 !! product_id); [| done]. simpl.
    apply other_carts_untouched_items; [done |].
    apply insert_own_line; [done |].
    intros old Hold. exfalso. apply (is_fresh (dom (cart_items db1))).
    apply elem_of_dom. by exists old.
  - assert (Hin : (pk, existing)
                  ∈ CartViewSet.CartItem_filter db1 (user_id user) product_id)
      by (rewrite Hfilter; apply list_elem_of_here).
    apply CartItem_filter_elem in Hin as (Hpk & Hcart & _).
    simpl. destruct (products db1 !! _); [| done].
    destruct (decide _); [done |]. simpl.
    apply other_carts_untouched_items; [done |].
    apply insert_own_line; [done |].
    intros old Hold. congruence.
Qed.

(** C6, as amended: every cart operation touches only the caller's own
    cart.  [add_item] creates that cart on demand; [update_item],
    [remove_item] and [clear] answer 404 and change nothing when the caller
    has no cart. *)
Theorem cart_operations_scope validate (db : DB) (user : User)
    (data : QueryDict) :
  user_id user ∈ carts (CartViewSet.add_item validate db user data).1
  ∧ (user_id user ∉ carts db →
     CartViewSet.update_item db user data = (db, Http404)
     ∧ CartViewSet.remove_item db user data = (db, Http404)
     ∧ CartViewSet.clear db user = (db, Http404))
  ∧ other_carts_untouched user db
      (CartViewSet.add_item validate db user data).1
  ∧ other_carts_untouched user db (CartViewSet.update_item db user data).1
  ∧ other_carts_untouched user db (CartViewSet.remove_item db user data).1
  ∧ other_carts_untouched user db (CartViewSet.clear db user).1.
Proof.
  split_and!.
  - destruct (add_item_scope validate db user data) as (_ & _ & _ & _).
    unfold CartViewSet.add_item.
    pose proof (Cart_get_or_create_db db user) as Hdb1.
    destruct (CartViewSet.Cart_get_or_create db user) as [db1 created].
    simpl in Hdb1.
    assert (Hin : user_id user ∈ carts db1) by (subst db1; apply elem_of_union_l, elem_of_singleton; done).
    destruct (validate db1 data) as [e | [product_id quantity]]; [done |].
    destruct (CartViewSet.CartItem_filter db1 (user_id user) product_id)
      as [| [pk existing] [| ? ?]]; [| | done].
    + by destruct (products db1 !! product_id).
    + simpl. destruct (products db1 !! _); [| done].
      by destruct (decide _).
  - intros Hnone.
    unfold CartViewSet.update_item, CartViewSet.remove_item,
      CartViewSet.clear.
    by destruct (decide (user_id user ∈ carts db)).
  - apply add_item_scope.
  - unfold CartViewSet.update_item.
    destruct (decide (user_id user ∈ carts db));
      [| apply other_carts_untouched_refl].
    destruct (decide _); [apply other_carts_untouched_refl |].
    destruct (CartViewSet.CartItem_get _ _ _) as [[pk it] |] eqn:Hget;
      [| apply other_carts_untouched_refl].
    apply CartItem_get_Some in Hget as (_ & Hpk & Hcart).
    destruct (products db !! _); [| apply other_carts_untouched_refl].
    destruct (decide _); [apply other_carts_untouched_refl |]. simpl.
    apply other_carts_untouched_items; [apply other_carts_untouched_refl |].
    apply insert_own_line; [done |]. intros old Hold. congruence.
  - unfold CartViewSet.remove_item.
    destruct (decide (user_id user ∈ carts db));
      [| apply other_carts_untouched_refl].
    destruct (CartViewSet.CartItem_get _ _ _) as [[pk it] |] eqn:Hget;
      [| apply other_carts_untouched_refl].
    apply CartItem_get_Some in Hget as (_ & Hpk & Hcart). simpl.
    apply other_carts_untouched_items; [apply other_carts_untouched_refl |].
    apply delete_own_line. intros old Hold. congruence.
  - unfold CartViewSet.clear.
    destruct (decide (user_id user ∈ carts db));
      [| apply other_carts_untouched_refl]. simpl.
    apply other_carts_untouched_items; [apply other_carts_untouched_refl |].
    intros pk it Hit. rewrite map_lookup_filter_Some. simpl. tauto.
Qed.

Lemma cart_operations_scope_witness :
  (user_id bob ∉ carts shop)
  ∧ CartViewSet.update_item shop bob (item_payload 10 1) = (shop, Http404)
  ∧ CartViewSet.remove_item shop bob (item_payload 10 1) = (shop, Http404)
  ∧ CartViewSet.clear shop bob = (shop, Http404).
Proof.
  assert (H : user_id bob ∉ carts shop) by (vm_compute; discriminate).
  split; [exact H |].
  by apply (cart_operations_scope positive_quantity shop bob
              (item_payload 10 1)).
Defined.

(** C6, as stated, fails: a caller with no cart is answered 404 by [clear]
    (and by [update_item] and [remove_item]); no cart is created. *)
Lemma clear_without_cart_counterexample :
  (user_id bob ∉ carts shop)
  ∧ CartViewSet.clear shop bob = (shop, Http404)
  ∧ (user_id bob ∉ carts (CartViewSet.clear shop bob).1).
Proof.
  split_and!; [vm_compute; discriminate | reflexivity | vm_compute; discriminate].
Qed.

(** ** Adding to the cart *)


Section add_item.
Variable validate : DB → QueryDict → Error + Z * Z.
Variables (db : DB) (user : User) (data : QueryDict).
Variables (product_id quantity : Z) (product : Product.t).

Let db1 := CartViewSet.get_object db user.

Hypothesis Hvalid : validate db1 data = inr (product_id, quantity).
Hypothesis Hproduct : products db !! product_id = Some product.

Lemma get_object_tables :
  cart_items db1 = cart_items db ∧ products db1 = products db
  ∧ orders db1 = orders db.
Proof.
  subst db1. unfold CartViewSet.get_object.
  by rewrite Cart_get_or_create_db.
Qed.

Lemma CartItem_filter_get_object cart p :
  CartViewSet.CartItem_filter db1 cart p
  = CartViewSet.CartItem_filter db cart p.
Proof.
  unfold CartViewSet.CartItem_filter.
  by destruct get_object_tables as (-> & _).
Qed.

(** No line yet: the line is created with the requested quantity, and the
    product's stock is not looked at. *)
Lemma add_item_created :
  CartViewSet.CartItem_filter db (user_id user) product_id = [] →
  let pk := fresh (dom (cart_items db)) in
  let line := {| CartItem.cart := user_id user;
                 CartItem.product_id := product_id;
                 CartItem.quantity := quantity |} in
  CartViewSet.add_item validate db user data
  = (set_cart_items (<[pk := line]> (cart_items db)) db1,
     Response (CartItemSerializer_data pk line) HTTP_201_CREATED)
  ∧ cart_items db !! pk = None
  ∧ CartViewSet.CartItem_filter
      (CartViewSet.add_item validate db user data).1
      (user_id user) product_id = [(pk, line)].
Proof.
  intros Hnone pk line.
  assert (Hfresh : cart_items db !! pk = None).
  { apply not_elem_of_dom. apply is_fresh. }
  assert (Hrun : CartViewSet.add_item validate db user data
    = (set_cart_items (<[pk := line]> (cart_items db)) db1,
       Response (CartItemSerializer_data pk line) HTTP_201_CREATED)).
  { pose proof CartItem_filter_get_object as Hfilter.
    destruct get_object_tables as (Hitems & Hproducts & _).
    unfold CartViewSet.add_item. subst db1.
    unfold CartViewSet.get_object in *.
    destruct (CartViewSet.Cart_get_or_create db user) as [db' created].
    simpl in *. rewrite Hvalid, Hfilter, Hnone, Hproducts, Hproduct.
    by rewrite Hitems. }
  split_and!; [done .. |].
  rewrite Hrun. simpl. unfold CartViewSet.CartItem_filter in *. simpl.
  apply map_to_list_empty_iff in Hnone.
  rewrite map_filter_insert_True by done.
  by rewrite Hnone, insert_empty, map_to_list_singleton.
Qed.

Variables (pk : Z) (existing : CartItem.t).
Hypothesis Hexisting :
  CartViewSet.CartItem_filter db (user_id user) product_id = [(pk, existing)].

Let line := CartItem.with_quantity (CartItem.quantity existing + quantity)
                                   existing.



End add_item.

(** C2: with the serializer performing the specification's validation and
    stock check, an [add_item] for a product the caller's cart does not
    hold creates the line, with the requested quantity, only when that
    quantity is within the product's stock; when it exceeds the stock the
    call fails with [InsufficientStock] and no line is created. *)
Theorem add_item_new_line_checked (db : DB) (user : User) (data : QueryDict)
    (product_id quantity : Z) (product : Product.t) :
  data !! "product_id" = Some product_id →
  data !! "quantity" = Some quantity →
  0 < quantity →
  products db !! product_id = Some product →
  CartViewSet.CartItem_filter db (user_id user) product_id = [] →
  let r := CartViewSet.add_item CartItemSerializer_is_valid db user data in
  let pk := fresh (dom (cart_items db)) in
  let line := {| CartItem.cart := user_id user;
                 CartItem.product_id := product_id;
                 CartItem.quantity := quantity |} in
  (quantity ≤ Product.stock_quantity product →
   r = (set_cart_items (<[pk := line]> (cart_items db))
          (CartViewSet.get_object db user),
        Response (CartItemSerializer_data pk line) HTTP_201_CREATED)
   ∧ CartViewSet.CartItem_filter r.1 (user_id user) product_id
     = [(pk, line)])
  ∧ (quantity > Product.stock_quantity product →
     r = (CartViewSet.get_object db user,
          ValidationError
            (InsufficientStock
               [(product_id, quantity, Product.stock_quantity product)]))
     ∧ cart_items r.1 = cart_items db
     ∧ CartViewSet.CartItem_filter r.1 (user_id user) product_id = [])
  ∧ (∀ pk' line',
       r.2 = Response (CartItemSerializer_data pk' line') HTTP_201_CREATED →
       quantity ≤ Product.stock_quantity product).
Proof.
  intros Hpid Hq Hpos Hproduct Hnone r pk line.
  destruct (get_object_tables db user) as (Hitems & Hproducts & _).
  assert (Hvalid :
    CartItemSerializer_is_valid (CartViewSet.get_object db user) data
    = if decide (quantity ≤ Product.stock_quantity product)
      then inr (product_id, quantity)
      else inl (InsufficientStock
                  [(product_id, quantity, Product.stock_quantity product)])).
  { unfold CartItemSerializer_is_valid, positive_quantity, Ledger.check.
    rewrite Hpid, Hq. simpl.
    destruct (decide (0 < quantity)); [| lia].
    rewrite Hproducts, Hproduct. simpl.
    destruct (decide (quantity ≤ Product.stock_quantity product)).
    - by rewrite bool_decide_eq_true_2.
    - by rewrite bool_decide_eq_false_2. }
  assert (Hrefused : quantity > Product.stock_quantity product →
    r = (CartViewSet.get_object db user,
         ValidationError
           (InsufficientStock
              [(product_id, quantity, Product.stock_quantity product)]))).
  { intros Hgt. subst r.
    destruct (decide (quantity ≤ Product.stock_quantity product));
      [lia |].
    unfold CartViewSet.add_item, CartViewSet.get_object in *.
    destruct (CartViewSet.Cart_get_or_create db user) as [db1 created].
    simpl in *. by rewrite Hvalid. }
  split_and!.
  - intros Hle.
    destruct (decide (quantity ≤ Product.stock_quantity product));
      [| lia].
    destruct (add_item_created CartItemSerializer_is_valid db user data
                product_id quantity product Hvalid Hproduct Hnone)
      as (Hrun & _ & Hline).
    by split.
  - intros Hgt. rewrite (Hrefused Hgt). simpl. split_and!; [done .. |].
    by rewrite CartItem_filter_get_object.
  - intros pk' line' Hanswer.
    destruct (decide (quantity ≤ Product.stock_quantity product)) as [| Hgt];
      [done |].
    rewrite Hrefused in Hanswer by lia. discriminate Hanswer.
Qed.

(** Stock of gadgets is 2; Alice, who has no gadget line, asks for 7, and
    then for 2. *)
Lemma add_item_new_line_checked_witness :
  CartViewSet.add_item CartItemSerializer_is_valid shop alice (payload 2 7)
  = (shop, ValidationError (InsufficientStock [(2, 7, 2)]))
  ∧ (CartViewSet.add_item CartItemSerializer_is_valid shop alice
       (payload 2 2)).2
    = Response
        (CartItemSerializer_data 11
           {| CartItem.cart := 1; CartItem.product_id := 2;
              CartItem.quantity := 2 |})
        HTTP_201_CREATED.
Proof.
  split.
  - destruct (add_item_new_line_checked shop alice (payload 2 7) 2 7 gadget)
      as (_ & Hrefused & _); [vm_compute; reflexivity .. |].
    destruct Hrefused as (-> & _); [vm_compute; reflexivity |].
    vm_compute. reflexivity.
  - destruct (add_item_new_line_checked shop alice (payload 2 2) 2 2 gadget)
      as (Hcreated & _); [vm_compute; reflexivity .. |].
    destruct Hcreated as (-> & _); [vm_compute; discriminate |].
    vm_compute. reflexivity.
Defined.




(** ** One line per product is an invariant of the cart operations *)

Lemma unique_together_subset (db : DB) (items : gmap Z CartItem.t)
    (cart : Z) :
  (∀ pk it, items !! pk = Some it →
            ∃ old, cart_items db !! pk = Some old
                   ∧ CartItem.cart old = CartItem.cart it
                   ∧ CartItem.product_id old = CartItem.product_id it) →
  unique_together db cart →
  unique_together (set_cart_items items db) cart.
Proof.
  intros Hold Hunique pk1 pk2 it1 it2 H1 H2 Hc1 Hc2 Hsame. simpl in *.
  apply Hold in H1 as (old1 & H1 & Hc1' & Hp1).
  apply Hold in H2 as (old2 & H2 & Hc2' & Hp2).
  apply (Hunique pk1 pk2 old1 old2); congruence.
Qed.

Lemma unique_together_get_object (db : DB) (user : User) (cart : Z) :
  unique_together db cart →
  unique_together (CartViewSet.get_object db user) cart.
Proof.
  unfold CartViewSet.get_object. by rewrite Cart_get_or_create_db.
Qed.

Lemma insert_over_line (m : gmap Z CartItem.t) (pk : Z)
    (existing line : CartItem.t) :
  m !! pk = Some existing →
  CartItem.cart existing = CartItem.cart line →
  CartItem.product_id existing = CartItem.product_id line →
  ∀ pk' it, <[pk := line]> m !! pk' = Some it →
            ∃ old, m !! pk' = Some old
                   ∧ CartItem.cart old = CartItem.cart it
                   ∧ CartItem.product_id old = CartItem.product_id it.
Proof.
  intros Hpk Hcart Hproduct pk' it Hin.
  apply lookup_insert_Some in Hin as [[<- <-] | [_ Hin]].
  - by exists existing.
  - by exists it.
Qed.

Lemma add_item_unique_together validate (db : DB) (user : User)
    (data : QueryDict) (cart : Z) :
  unique_together db cart →
  unique_together (CartViewSet.add_item validate db user data).1 cart.
Proof.
  intros Hunique.
  apply (unique_together_get_object db user) in Hunique.
  unfold CartViewSet.add_item, CartViewSet.get_object in *.
  destruct (CartViewSet.Cart_get_or_create db user) as [db1 created].
  simpl in Hunique.
  destruct (validate db1 data) as [e | [product_id quantity]]; [done |].
  destruct (CartViewSet.CartItem_filter db1 (user_id user) product_id)
    as [| [pk existing] [| ? ?]] eqn:Hfilter; [| | done].
  - destruct (products db1 !! product_id); [| done]. simpl.
    assert (Hfresh : cart_items db1 !! fresh (dom (cart_items db1)) = None)
      by apply not_elem_of_dom, is_fresh.
    assert (Hnone : ∀ pk it, cart_items db1 !! pk = Some it →
                             CartItem.cart it = user_id user →
                             CartItem.product_id it = product_id → False).
    { intros pk it Hpk Hc Hp.
      assert (Hin : (pk, it) ∈ CartViewSet.CartItem_filter db1
                                 (user_id user) product_id)
        by (by apply CartItem_filter_elem).
      rewrite Hfilter in Hin. by apply elem_of_nil in Hin. }
    intros pk1 pk2 it1 it2 H1 H2 Hc1 Hc2 Hsame. simpl in H1, H2.
    apply lookup_insert_Some in H1 as [[<- <-] | [Hne1 H1]];
      apply lookup_insert_Some in H2 as [[<- <-] | [Hne2 H2]];
      simpl in *.
    + done.
    + exfalso. apply (Hnone pk2 it2); congruence.
    + exfalso. apply (Hnone pk1 it1); congruence.
    + by apply (Hunique pk1 pk2 it1 it2).
  - assert (Hin : (pk, existing)
                  ∈ CartViewSet.CartItem_filter db1 (user_id user) product_id)
      by (rewrite Hfilter; apply list_elem_of_here).
    apply CartItem_filter_elem in Hin as (Hpk & _ & _).
    simpl. destruct (products db1 !! _); [| done].
    destruct (decide _); [done |]. simpl.
    apply unique_together_subset; [| done].
    by apply (insert_over_line _ _ existing).
Qed.

Lemma cart_operations_unique_together (db : DB) (user : User)
    (data : QueryDict) (cart : Z) :
  unique_together db cart →
  unique_together (CartViewSet.update_item db user data).1 cart
  ∧ unique_together (CartViewSet.remove_item db user data).1 cart
  ∧ unique_together (CartViewSet.clear db user).1 cart.
Proof.
  intros Hunique. split_and!.
  - unfold CartViewSet.update_item.
    destruct (decide (user_id user ∈ carts db)); [| done].
    destruct (decide _); [done |].
    destruct (CartViewSet.CartItem_get _ _ _) as [[pk it] |] eqn:Hget;
      [| done].
    apply CartItem_get_Some in Hget as (_ & Hpk & _).
    destruct (products db !! _); [| done].
    destruct (decide _); [done |]. simpl.
    apply unique_together_subset; [| done].
    by apply (insert_over_line _ _ it).
  - unfold CartViewSet.remove_item.
    destruct (decide (user_id user ∈ carts db)); [| done].
    destruct (CartViewSet.CartItem_get _ _ _) as [[pk it] |]; [| done].
    simpl. apply unique_together_subset; [| done].
    intros pk' it' Hin. apply lookup_delete_Some in Hin as [_ Hin].
    by exists it'.
  - unfold CartViewSet.clear.
    destruct (decide (user_id user ∈ carts db)); [| done]. simpl.
    apply unique_together_subset; [| done].
    intros pk' it' Hin. apply map_lookup_filter_Some in Hin as [Hin _].
    by exists it'.
Qed.

(** ** Order creation *)

Lemma with_stock_quantity_same (p : Product.t) (s : Z) :
  s = Product.stock_quantity p → Product.with_stock_quantity s p = p.
Proof. intros ->. by destruct p. Qed.

Lemma release_reserve (ledger ledger' : gmap Z Product.t)
    (product_id quantity : Z) :
  Ledger.reserve ledger product_id quantity = inr ledger' →
  Ledger.release ledger' product_id quantity = ledger.
Proof.
  unfold Ledger.reserve, Ledger.release.
  destruct (ledger !! product_id) as [p |] eqn:Hp; [| done].
  destruct (decide _); [| done]. intros [= <-].
  rewrite alter_insert_eq. apply insert_id. rewrite Hp. f_equal.
  destruct p. unfold Product.with_stock_quantity. simpl. f_equal. lia.
Qed.

Lemma reserve_inr (ledger ledger' : gmap Z Product.t)
    (product_id quantity : Z) :
  Ledger.reserve ledger product_id quantity = inr ledger' →
  ∃ p, ledger !! product_id = Some p
       ∧ quantity ≤ Product.stock_quantity p
       ∧ ledger'
         = <[product_id := Product.with_stock_quantity
                             (Product.stock_quantity p - quantity) p]> ledger.
Proof.
  unfold Ledger.reserve.
  destruct (ledger !! product_id) as [p |]; [| done].
  destruct (decide _); [| done]. intros [= <-]. by exists p.
Qed.

Lemma reserve_check (ledger : gmap Z Product.t) (product_id quantity : Z) :
  Ledger.check ledger product_id quantity = true
  ↔ ∃ ledger', Ledger.reserve ledger product_id quantity = inr ledger'.
Proof.
  unfold Ledger.check, Ledger.reserve.
  destruct (ledger !! product_id) as [p |].
  - rewrite bool_decide_eq_true. destruct (decide _).
    + split; [by eexists | done].
    + split; [done | by intros [? ?]].
  - split; [done | by intros [? ?]].
Qed.

Lemma reserve_all_rollback (lines : list (Z * CartItem.t)) :
  ∀ ledger reserved failed ledger' reserved' failed',
    OrderFactory.reserve_all ledger lines reserved failed
    = (ledger', reserved', failed') →
    OrderFactory.release_all ledger' reserved'
    = OrderFactory.release_all ledger reserved.
Proof.
  induction lines as [| [pk it] lines IH];
    intros ledger reserved failed ledger' reserved' failed' Hrun;
    simpl in Hrun.
  - by injection Hrun as <- <- <-.
  - destruct (Ledger.reserve ledger _ _) as [f | ledger1] eqn:Hreserve.
    + by apply IH in Hrun.
    + apply IH in Hrun. rewrite Hrun. unfold OrderFactory.release_all.
      simpl. by rewrite (release_reserve _ _ _ _ Hreserve).
Qed.

Lemma reserve_all_failed (lines : list (Z * CartItem.t)) :
  ∀ ledger reserved failed ledger' reserved' failed',
    OrderFactory.reserve_all ledger lines reserved failed
    = (ledger', reserved', failed') →
    ∃ more, failed' = (failed ++ more)%list.
Proof.
  induction lines as [| [pk it] lines IH];
    intros ledger reserved failed ledger' reserved' failed' Hrun;
    simpl in Hrun.
  - injection Hrun as <- <- <-. exists []. by rewrite app_nil_r.
  - destruct (Ledger.reserve ledger _ _) as [f | ledger1].
    + apply IH in Hrun as [more ->]. exists (f :: more).
      by rewrite <- app_assoc.
    + by apply IH in Hrun.
Qed.

Lemma reserve_all_success (lines : list (Z * CartItem.t)) :
  NoDup ((λ line, CartItem.product_id line.2) <$> lines) →
  ∀ ledger reserved failed ledger' reserved',
    OrderFactory.reserve_all ledger lines reserved failed
    = (ledger', reserved', []) →
    (∀ pk it, (pk, it) ∈ lines →
       ∃ p, ledger !! CartItem.product_id it = Some p
            ∧ CartItem.quantity it ≤ Product.stock_quantity p
            ∧ ledger' !! CartItem.product_id it
              = Some (Product.with_stock_quantity
                        (Product.stock_quantity p - CartItem.quantity it) p))
    ∧ (∀ product_id,
         product_id ∉ (λ line, CartItem.product_id line.2) <$> lines →
         ledger' !! product_id = ledger !! product_id).
Proof.
  induction lines as [| [pk0 it0] lines IH];
    intros Hnodup ledger reserved failed ledger' reserved' Hrun;
    simpl in Hrun.
  - injection Hrun as <- <- ->. split; [| done].
    intros pk it Hin. by apply elem_of_nil in Hin.
  - rewrite fmap_cons in Hnodup. apply NoDup_cons in Hnodup as [Hhead Hnodup].
    simpl in Hhead.
    destruct (Ledger.reserve ledger _ _) as [f | ledger1] eqn:Hreserve.
    { apply reserve_all_failed in Hrun as [more Hmore].
      by destruct failed. }
    apply reserve_inr in Hreserve as (p0 & Hp0 & Hq0 & ->).
    destruct (IH Hnodup _ _ _ _ _ Hrun) as [Hlines Hother].
    split.
    + intros pk it Hin. apply elem_of_cons in Hin as [[= -> ->] | Hin].
      * exists p0. split_and!; [done .. |].
        by rewrite (Hother _ Hhead), lookup_insert_eq.
      * destruct (Hlines pk it Hin) as (p & Hp & Hq & Hp').
        assert (Hne : CartItem.product_id it0 ≠ CartItem.product_id it).
        { intros Heq. apply Hhead. rewrite Heq.
          apply (list_elem_of_fmap_2
                   (λ line : Z * CartItem.t, CartItem.product_id line.2)
                   _ (pk, it) Hin). }
        rewrite lookup_insert_ne in Hp by done. by exists p.
    + intros product_id Hnotin. rewrite fmap_cons in Hnotin.
      apply not_elem_of_cons in Hnotin as [Hne Hnotin]. simpl in Hne.
      by rewrite (Hother _ Hnotin), lookup_insert_ne.
Qed.

Lemma cart_lines_elem (db : DB) (cart pk : Z) (it : CartItem.t) :
  (pk, it) ∈ OrderFactory.cart_lines db cart
  ↔ cart_items db !! pk = Some it ∧ CartItem.cart it = cart.
Proof.
  unfold OrderFactory.cart_lines.
  by rewrite merge_sort_Permutation, elem_of_map_to_list,
    map_lookup_filter_Some.
Qed.

Lemma cart_lines_NoDup (db : DB) (cart : Z) :
  unique_together db cart →
  NoDup ((λ line, CartItem.product_id line.2)
           <$> OrderFactory.cart_lines db cart).
Proof.
  intros Hunique. unfold OrderFactory.cart_lines.
  rewrite merge_sort_Permutation.
  apply NoDup_fmap_2_strong; [| apply NoDup_map_to_list].
  intros [pk1 it1] [pk2 it2] H1 H2 Hsame. simpl in Hsame.
  apply elem_of_map_to_list, map_lookup_filter_Some in H1 as [H1 Hc1].
  apply elem_of_map_to_list, map_lookup_filter_Some in H2 as [H2 Hc2].
  simpl in *.
  assert (pk1 = pk2) as -> by (by apply (Hunique pk1 pk2 it1 it2)).
  congruence.
Qed.

(** Whatever the cart holds, a failed creation leaves the database as it
    was: the reservations made before the failure are all released. *)
Lemma create_order_failure_restores (db db' : DB) (user : User) (e : Error) :
  OrderFactory.create_order db user = (db', inl e) → db' = db.
Proof.
  unfold OrderFactory.create_order.
  destruct (OrderFactory.cart_lines db (user_id user)) as [| line lines];
    [by intros [= <- _] |].
  destruct (OrderFactory.reserve_all _ _ _ _)
    as [[ledger reserved] failed] eqn:Hrun.
  destruct failed; [done |]. intros [= <- _].
  apply reserve_all_rollback in Hrun. rewrite Hrun.
  unfold OrderFactory.release_all. simpl. apply set_products_id.
Qed.

(** C1: [create_order] is all-or-nothing.  For a cart with at most one line
    per product, either the request is answered 201 with a new pending
    order of the caller, every line's product stock has decreased by
    exactly that line's quantity (which was within the stock), every other
    product and every other cart is as before and the caller's cart is
    empty; or the request fails and the database is exactly as before.
    Every line of a created order was within the stock it was taken from. *)
Theorem create_order_atomic (db : DB) (user : User) :
  unique_together db (user_id user) →
  let r := OrderViewSet.create_order OrderFactory.OrderCreateSerializer_save
             db user () in
  (∃ pk order,
      r.2 = Response (OrderSerializer_data pk order) HTTP_201_CREATED
      ∧ orders db !! pk = None
      ∧ orders r.1 = <[pk := order]> (orders db)
      ∧ Order.user order = user_id user
      ∧ Order.status order = pending
      ∧ (∀ ipk it,
           cart_items db !! ipk = Some it → CartItem.cart it = user_id user →
           ∃ p, products db !! CartItem.product_id it = Some p
                ∧ CartItem.quantity it ≤ Product.stock_quantity p
                ∧ products r.1 !! CartItem.product_id it
                  = Some (Product.with_stock_quantity
                            (Product.stock_quantity p - CartItem.quantity it)
                            p)
                ∧ ∃ l, l ∈ Order.lines order
                       ∧ OrderLine.product_id l = CartItem.product_id it
                       ∧ OrderLine.quantity l = CartItem.quantity it
                       ∧ OrderLine.unit_price l = Product.price p)
      ∧ (∀ product_id,
           (∀ ipk it, cart_items db !! ipk = Some it →
                      CartItem.cart it = user_id user →
                      CartItem.product_id it ≠ product_id) →
           products r.1 !! product_id = products db !! product_id)
      ∧ (∀ l, l ∈ Order.lines order →
              ∃ p, products db !! OrderLine.product_id l = Some p
                   ∧ OrderLine.quantity l ≤ Product.stock_quantity p)
      ∧ CartViewSet.Cart_items r.1 (user_id user) = ∅
      ∧ (∀ ipk it, CartItem.cart it ≠ user_id user →
                   cart_items r.1 !! ipk = Some it
                   ↔ cart_items db !! ipk = Some it)
      ∧ carts r.1 = carts db)
  ∨ (∃ e, r = (db, ValidationError e)).
Proof.
  intros Hunique r. subst r.
  unfold OrderViewSet.create_order, OrderFactory.OrderCreateSerializer_save,
    OrderFactory.create_order.
  pose proof (cart_lines_NoDup db (user_id user) Hunique) as Hnodup.
  pose proof (cart_lines_elem db (user_id user)) as Helem.
  destruct (OrderFactory.cart_lines db (user_id user))
    as [| line lines] eqn:Hlines.
  { right. by exists EmptyCart. }
  rewrite <- Hlines in *. clear Hlines line lines.
  destruct (OrderFactory.reserve_all _ _ _ _)
    as [[ledger reserved] failed] eqn:Hrun.
  destruct failed as [| f failed].
  2:{ right. exists (InsufficientStock (f :: failed)).
      apply reserve_all_rollback in Hrun. rewrite Hrun.
      unfold OrderFactory.release_all. simpl.
      by rewrite set_products_id. }
  left.
  destruct (reserve_all_success _ Hnodup _ _ _ _ _ Hrun) as [Hreserved Hother].
  eexists _, _. simpl. split_and!; try done.
  - apply not_elem_of_dom, is_fresh.
  - intros ipk it Hipk Hcart.
    destruct (Hreserved ipk it) as (p & Hp & Hq & Hp').
    { by apply Helem. }
    exists p. split_and!; [done .. |].
    eexists. split.
    + apply list_elem_of_omap. exists (ipk, it).
      split; [by apply Helem |].
      unfold OrderFactory.snapshot. simpl. rewrite Hp'. simpl. done.
    + done.
  - intros product_id Hnot. apply Hother.
    intros Hin. apply list_elem_of_fmap in Hin as ([ipk it] & -> & Hin).
    apply Helem in Hin as [Hipk Hcart]. by apply (Hnot ipk it).
  - intros l Hl. apply list_elem_of_omap in Hl as ([ipk it] & Hin & Hsnap).
    destruct (Hreserved ipk it Hin) as (p & Hp & Hq & Hp').
    unfold OrderFactory.snapshot in Hsnap. simpl in Hsnap.
    rewrite Hp' in Hsnap. simpl in Hsnap. injection Hsnap as <-. simpl.
    by exists p.
  - unfold CartViewSet.Cart_items. simpl. apply map_empty. intros ipk.
    apply map_lookup_filter_None. right. intros it Hin.
    by apply map_lookup_filter_Some in Hin as [_ ?].
  - intros ipk it Hit. rewrite map_lookup_filter_Some. simpl.
    split; [by intros [? _] | done].
Qed.

Lemma create_order_atomic_witness :
  unique_together shop (user_id alice)
  ∧ ∃ p,
      products
        (OrderViewSet.create_order OrderFactory.OrderCreateSerializer_save
           shop alice ()).1 !! 1 = Some p
      ∧ Product.stock_quantity p = 2.
Proof.
  assert (H : unique_together shop (user_id alice)).
  { intros pk1 pk2 it1 it2 H1 H2 _ _ _. simpl in H1, H2.
    apply lookup_insert_Some in H1 as [[<- _] | [_ H1]]; [| done].
    by apply lookup_insert_Some in H2 as [[<- _] | [_ H2]]. }
  split; [exact H |].
  destruct (create_order_atomic shop alice H)
    as [(pk & order & _ & _ & _ & _ & _ & Hstock & _) | [e He]].
  - destruct (Hstock 10 {| CartItem.cart := 1; CartItem.product_id := 1;
                           CartItem.quantity := 3 |})
      as (p & Hp & _ & Hp' & _); [reflexivity | reflexivity |].
    eexists. split; [exact Hp' |].
    vm_compute in Hp. injection Hp as <-. reflexivity.
  - vm_compute in He. discriminate He.
Defined.

(** ** The scenarios of the specification *)

(** Stock is 5.  Adding 3 succeeds; adding 4 more is rejected and the line
    stays at 3; updating to 5 succeeds; the order then takes the stock to 0,
    has one line of quantity 5, and the cart is empty. *)
Example scenario_single_cart :
  let s1 := CartViewSet.add_item positive_quantity market alice (payload 1 3) in
  let s2 := CartViewSet.add_item positive_quantity s1.1 alice (payload 1 4) in
  let s3 := CartViewSet.update_item s2.1 alice (item_payload 0 5) in
  let s4 := OrderViewSet.create_order OrderFactory.OrderCreateSerializer_save
              s3.1 alice () in
  cart_items s1.1 !! 0
  = Some {| CartItem.cart := 1; CartItem.product_id := 1;
            CartItem.quantity := 3 |}
  ∧ s2 = (s1.1, Response (error "Insufficient stock") HTTP_400_BAD_REQUEST)
  ∧ s3.2 = Response
             (CartItemSerializer_data 0
                {| CartItem.cart := 1; CartItem.product_id := 1;
                   CartItem.quantity := 5 |})
             HTTP_200_OK
  ∧ s4.2 = Response
             (OrderSerializer_data 0
                {| Order.user := 1; Order.status := pending;
                   Order.lines :=
                     [{| OrderLine.product_id := 1;
                         OrderLine.product_name := "widget";
                         OrderLine.unit_price := 250;
                         OrderLine.quantity := 5 |}];
                   Order.total := 1250 |})
             HTTP_201_CREATED
  ∧ Product.stock_quantity <$> products s4.1 !! 1 = Some 0
  ∧ cart_items s4.1 = ∅.
Proof. vm_compute. repeat split. Qed.

(** Two carts hold 3 units each of a product with stock 5: the first order
    succeeds and leaves 2; the second fails for that product and leaves the
    second cart and the stock as they were. *)
Example scenario_two_carts :
  let s1 := OrderViewSet.create_order OrderFactory.OrderCreateSerializer_save
              rush alice () in
  let s2 := OrderViewSet.create_order OrderFactory.OrderCreateSerializer_save
              s1.1 bob () in
  Product.stock_quantity <$> products s1.1 !! 1 = Some 2
  ∧ s2 = (s1.1, ValidationError (InsufficientStock [(1, 3, 2)])).
Proof. vm_compute. repeat split. Qed.

(** * Further properties of the handlers *)

(** ** Removing lines *)

(** X1: [remove_item] on the payload as it arrives.  It answers 404 exactly
    when the caller has no cart or the item identifier is absent or names
    no line of the caller's cart; it lets an exception through exactly when
    the caller has a cart and the query refuses the identifier (one that
    is not a number); in both cases nothing changes.  Otherwise it deletes
    that one line, answers 200, and every other line is as before.  An
    integer identifier is never refused. *)
Theorem remove_item_outcomes {Other : Type} (python : Raw.Semantics Other)
    (db : DB) (user : User) (data : gmap string (Raw.Value Other)) :
  let found :=
    Raw.get_cart_item python db (user_id user) (data !! "item_id") in
  let r := Raw.remove_item python db user data in
  (r.2 = Raw.Answer Http404 ↔ user_id user ∉ carts db ∨ found = inr None)
  ∧ (∀ e, r.2 = Raw.Raise e ↔ user_id user ∈ carts db ∧ found = inl e)
  ∧ (r.2 = Raw.Answer Http404 ∨ (∃ e, r.2 = Raw.Raise e) → r.1 = db)
  ∧ (∀ pk it,
        user_id user ∈ carts db → found = inr (Some (pk, it)) →
        r = (set_cart_items (delete pk (cart_items db)) db,
             Raw.Answer
               (Response (message "Item removed from cart") HTTP_200_OK))
        ∧ cart_items db !! pk = Some it
        ∧ CartItem.cart it = user_id user
        ∧ cart_items r.1 !! pk = None
        ∧ ∀ pk', pk' ≠ pk → cart_items r.1 !! pk' = cart_items db !! pk')
  ∧ (∀ pk, data !! "item_id" = Some (Raw.VInt pk) →
           found = inr (CartViewSet.CartItem_get db (user_id user) (Some pk))).
Proof.
  intros found r. subst r. unfold Raw.remove_item. fold found.
  assert (Hfound : ∀ pk it, found = inr (Some (pk, it)) →
                            cart_items db !! pk = Some it
                            ∧ CartItem.cart it = user_id user).
  { subst found. unfold Raw.get_cart_item. intros pk it.
    destruct (data !! "item_id") as [[z | v] |]; [| | done].
    - intros Heq.
      assert (Hget : CartViewSet.CartItem_get db (user_id user) (Some z)
                     = Some (pk, it)) by congruence.
      by apply CartItem_get_Some in Hget as (_ & ? & ?).
    - destruct (Raw.as_pk python v) as [z | |]; [| done ..].
      intros Heq.
      assert (Hget : CartViewSet.CartItem_get db (user_id user) (Some z)
                     = Some (pk, it)) by congruence.
      by apply CartItem_get_Some in Hget as (_ & ? & ?). }
  assert (Hinteger : ∀ pk, data !! "item_id" = Some (Raw.VInt pk) →
    found = inr (CartViewSet.CartItem_get db (user_id user) (Some pk))).
  { intros pk Hid. subst found. by rewrite Hid. }
  destruct (decide (user_id user ∈ carts db)) as [Hcart | Hcart].
  2:{ split_and!; [split; [by left | done] | | done | | done].
      - intros e. split; [discriminate | by intros [? _]].
      - intros ? ? ?. contradiction. }
  destruct found as [e | [[pk it] |]] eqn:Heq; simpl.
  - split_and!; [| | done | | done].
    + split; [discriminate | intros [? | ?]; [contradiction | discriminate]].
    + intros e'. split; [by intros [= ->] | by intros [_ [= ->]]].
    + intros; discriminate.
  - split_and!; [| | | | done].
    + split; [discriminate | intros [? | ?]; [contradiction | discriminate]].
    + intros e. split; [discriminate | intros [_ ?]; discriminate].
    + intros [? | [e ?]]; discriminate.
    + intros ? ? _ [= <- <-].
      destruct (Hfound pk it eq_refl) as [Hpk Hc].
      split_and!; [done .. | |].
      * apply lookup_delete_eq.
      * intros pk' Hne. by apply lookup_delete_ne.
  - split_and!; [split; [by right | done] | | done | | done].
    + intros e. split; [discriminate | intros [_ ?]; discriminate].
    + intros; discriminate.
Qed.

Lemma remove_item_success_inv (db : DB) (user : User) (data : QueryDict) :
  (CartViewSet.remove_item db user data).2
  = Response (message "Item removed from cart") HTTP_200_OK →
  ∃ pk it,
    user_id user ∈ carts db
    ∧ data !! "item_id" = Some pk
    ∧ cart_items db !! pk = Some it
    ∧ CartItem.cart it = user_id user
    ∧ (CartViewSet.remove_item db user data).1
      = set_cart_items (delete pk (cart_items db)) db.
Proof.
  unfold CartViewSet.remove_item.
  destruct (decide (user_id user ∈ carts db)); [| done].
  destruct (CartViewSet.CartItem_get _ _ _) as [[pk it] |] eqn:Hget;
    [| done].
  apply CartItem_get_Some in Hget as (Hid & Hpk & Hc). intros _.
  by exists pk, it.
Qed.

(** X2: [remove_item] is not idempotent: once a line has been removed, the
    same request again is answered 404 and changes nothing. *)
Theorem remove_item_twice (db : DB) (user : User) (data : QueryDict) :
  (CartViewSet.remove_item db user data).2
  = Response (message "Item removed from cart") HTTP_200_OK →
  CartViewSet.remove_item (CartViewSet.remove_item db user data).1 user data
  = ((CartViewSet.remove_item db user data).1, Http404).
Proof.
  intros Hok.
  apply remove_item_success_inv in Hok as (pk & it & Hcart & Hid & _ & _ & ->).
  unfold CartViewSet.remove_item at 1. simpl.
  destruct (decide (user_id user ∈ carts db)); [| done].
  unfold CartViewSet.CartItem_get. rewrite Hid. simpl.
  by rewrite lookup_delete_eq.
Qed.

Lemma remove_item_twice_witness :
  (CartViewSet.remove_item shop alice (item_payload 10 1)).2
  = Response (message "Item removed from cart") HTTP_200_OK
  ∧ (CartViewSet.remove_item
       (CartViewSet.remove_item shop alice (item_payload 10 1)).1
       alice (item_payload 10 1)).2 = Http404.
Proof.
  assert (H : (CartViewSet.remove_item shop alice (item_payload 10 1)).2
              = Response (message "Item removed from cart") HTTP_200_OK)
    by (vm_compute; reflexivity).
  split; [exact H |].
  by rewrite (remove_item_twice shop alice (item_payload 10 1) H).
Defined.

(** X3: adding a product the cart does not hold and then removing the line
    by the identifier the 201 answer carries restores the [CartItem] table;
    stock and orders were never touched, and the caller's cart exists. *)
Theorem add_item_then_remove_item validate (db : DB) (user : User)
    (data : QueryDict) (product_id quantity : Z) (product : Product.t) :
  validate (CartViewSet.get_object db user) data
  = inr (product_id, quantity) →
  products db !! product_id = Some product →
  CartViewSet.CartItem_filter db (user_id user) product_id = [] →
  let added := CartViewSet.add_item validate db user data in
  ∃ pk line,
    added.2 = Response (CartItemSerializer_data pk line) HTTP_201_CREATED
    ∧ CartViewSet.remove_item added.1 user (<["item_id" := pk]> ∅)
      = (CartViewSet.get_object db user,
         Response (message "Item removed from cart") HTTP_200_OK)
    ∧ cart_items (CartViewSet.get_object db user) = cart_items db
    ∧ products (CartViewSet.get_object db user) = products db
    ∧ orders (CartViewSet.get_object db user) = orders db.
Proof.
  intros Hvalid Hproduct Hnone added. subst added.
  destruct (add_item_created validate db user data product_id quantity
              product Hvalid Hproduct Hnone) as (Hrun & Hfresh & _).
  destruct (get_object_tables db user) as (Hitems & Hproducts & Horders).
  eexists _, _. rewrite Hrun. simpl. split_and!; try done.
  unfold CartViewSet.remove_item. simpl.
  assert (Hcart : user_id user ∈ carts (CartViewSet.get_object db user)).
  { unfold CartViewSet.get_object. rewrite Cart_get_or_create_db. simpl.
    apply elem_of_union_l, elem_of_singleton. done. }
  destruct (decide _) as [_ | Hno]; [| contradiction].
  unfold CartViewSet.CartItem_get. rewrite lookup_insert_eq. simpl.
  rewrite lookup_insert_eq. simpl.
  destruct (decide _) as [_ | Hno]; [| done].
  rewrite delete_insert_id by done.
  rewrite <- Hitems. f_equal. by destruct (CartViewSet.get_object db user).
Qed.

Lemma add_item_then_remove_item_witness :
  ∃ pk line,
    (CartViewSet.add_item positive_quantity shop alice (payload 2 1)).2
    = Response (CartItemSerializer_data pk line) HTTP_201_CREATED
    ∧ CartViewSet.remove_item
        (CartViewSet.add_item positive_quantity shop alice (payload 2 1)).1
        alice (<["item_id" := pk]> ∅)
      = (CartViewSet.get_object shop alice,
         Response (message "Item removed from cart") HTTP_200_OK).
Proof.
  destruct (add_item_then_remove_item positive_quantity shop alice
              (payload 2 1) 2 1 gadget)
    as (pk & line & H1 & H2 & _);
    [vm_compute; reflexivity .. |].
  by exists pk, line.
Defined.

(** ** Updating lines *)

Lemma update_item_success (db : DB) (user : User) (data : QueryDict)
    (pk : Z) (it : CartItem.t) (product : Product.t) :
  user_id user ∈ carts db →
  0 < default 1 (data !! "quantity") →
  data !! "item_id" = Some pk →
  cart_items db !! pk = Some it →
  CartItem.cart it = user_id user →
  products db !! CartItem.product_id it = Some product →
  default 1 (data !! "quantity") ≤ Product.stock_quantity product →
  CartViewSet.update_item db user data
  = (set_cart_items
       (<[pk := CartItem.with_quantity (default 1 (data !! "quantity")) it]>
          (cart_items db))
       db,
     Response
       (CartItemSerializer_data pk
          (CartItem.with_quantity (default 1 (data !! "quantity")) it))
       HTTP_200_OK).
Proof.
  intros Hcart Hq Hid Hpk Hc Hp Hs. unfold CartViewSet.update_item.
  destruct (decide (user_id user ∈ carts db)); [| done].
  destruct (decide (_ ≤ 0)); [lia |].
  unfold CartViewSet.CartItem_get. rewrite Hid. simpl. rewrite Hpk. simpl.
  destruct (decide (CartItem.cart it = user_id user)); [| done].
  rewrite Hp. by destruct (decide (_ > _)); [lia |].
Qed.

Lemma update_item_success_inv (db : DB) (user : User) (data : QueryDict)
    (pk : Z) (stored : CartItem.t) :
  (CartViewSet.update_item db user data).2
  = Response (CartItemSerializer_data pk stored) HTTP_200_OK →
  ∃ it product,
    user_id user ∈ carts db
    ∧ 0 < default 1 (data !! "quantity")
    ∧ data !! "item_id" = Some pk
    ∧ cart_items db !! pk = Some it
    ∧ CartItem.cart it = user_id user
    ∧ products db !! CartItem.product_id it = Some product
    ∧ default 1 (data !! "quantity") ≤ Product.stock_quantity product
    ∧ stored = CartItem.with_quantity (default 1 (data !! "quantity")) it.
Proof.
  unfold CartViewSet.update_item.
  destruct (decide (user_id user ∈ carts db)); [| done].
  destruct (decide (_ ≤ 0)); [done |].
  destruct (CartViewSet.CartItem_get _ _ _) as [[pk' it] |] eqn:Hget;
    [| done].
  apply CartItem_get_Some in Hget as (Hid & Hpk & Hc).
  destruct (products db !! _) as [product |] eqn:Hp; [| done].
  destruct (decide (_ > _)); [done |]. simpl. intros [= <- <-].
  exists it, product. split_and!; try done; lia.
Qed.

(** X4: the last write wins.  When two [update_item] requests for the same
    item would each succeed on their own, sending the second after the
    first leaves exactly the state and the answer of the second alone; in
    particular a successful update sent twice changes nothing more. *)
Theorem update_item_last_write_wins (db : DB) (user : User)
    (data1 data2 : QueryDict) (pk1 pk2 : Z) (it1 it2 : CartItem.t) :
  (CartViewSet.update_item db user data1).2
  = Response (CartItemSerializer_data pk1 it1) HTTP_200_OK →
  (CartViewSet.update_item db user data2).2
  = Response (CartItemSerializer_data pk2 it2) HTTP_200_OK →
  data1 !! "item_id" = data2 !! "item_id" →
  CartViewSet.update_item (CartViewSet.update_item db user data1).1 user data2
  = CartViewSet.update_item db user data2.
Proof.
  intros H1 H2 Hsame.
  apply update_item_success_inv in H1
    as (it & product & Hcart & Hq1 & Hid1 & Hpk & Hc & Hp & Hs1 & ->).
  apply update_item_success_inv in H2
    as (it' & product' & _ & Hq2 & Hid2 & Hpk' & _ & Hp' & Hs2 & ->).
  assert (pk2 = pk1) as -> by congruence.
  assert (it' = it) as -> by congruence.
  assert (product' = product) as -> by congruence.
  rewrite (update_item_success db user data1 pk1 it product) by done.
  rewrite (update_item_success db user data2 pk1 it product) by done.
  rewrite (update_item_success _ user data2 pk1
             (CartItem.with_quantity (default 1 (data1 !! "quantity")) it)
             product); try done.
  - simpl. by rewrite insert_insert_eq.
  - simpl. apply lookup_insert_eq.
Qed.

Lemma update_item_last_write_wins_witness :
  CartViewSet.update_item
    (CartViewSet.update_item shop alice (item_payload 10 5)).1
    alice (item_payload 10 2)
  = CartViewSet.update_item shop alice (item_payload 10 2).
Proof.
  apply (update_item_last_write_wins shop alice (item_payload 10 5)
           (item_payload 10 2) 10 10
           {| CartItem.cart := 1; CartItem.product_id := 1;
              CartItem.quantity := 5 |}
           {| CartItem.cart := 1; CartItem.product_id := 1;
              CartItem.quantity := 2 |});
    vm_compute; reflexivity.
Defined.

(** X5: a line of another user's cart cannot be reached by its identifier.
    When the identifier sent resolves to a line of someone else's cart,
    [remove_item] answers 404, [update_item] answers 404 whenever the
    quantity compares as positive, and neither ever changes the
    database. *)
Theorem foreign_line_not_found {Other : Type} (python : Raw.Semantics Other)
    (db : DB) (user : User) (data : gmap string (Raw.Value Other))
    (pk : Z) (it : CartItem.t) :
  (data !! "item_id" = Some (Raw.VInt pk)
   ∨ ∃ v, data !! "item_id" = Some (Raw.VOther v)
          ∧ Raw.as_pk python v = Raw.Key pk) →
  cart_items db !! pk = Some it →
  CartItem.cart it ≠ user_id user →
  Raw.remove_item python db user data = (db, Raw.Answer Http404)
  ∧ (Raw.update_item python db user data).1 = db
  ∧ (Raw.le_0 python (default (Raw.VInt 1) (data !! "quantity"))
     = Some false →
     Raw.update_item python db user data = (db, Raw.Answer Http404)).
Proof.
  intros Hid Hpk Hforeign.
  assert (Hget : Raw.get_cart_item python db (user_id user)
                   (data !! "item_id") = inr None).
  { assert (Hnone : CartViewSet.CartItem_get db (user_id user) (Some pk)
                    = None).
    { unfold CartViewSet.CartItem_get. simpl. rewrite Hpk. simpl.
      by destruct (decide _). }
    unfold Raw.get_cart_item.
    destruct Hid as [-> | (v & -> & Hv)]; [| rewrite Hv]; by rewrite Hnone. }
  unfold Raw.remove_item, Raw.update_item. rewrite Hget.
  destruct (decide (user_id user ∈ carts db)); [| done].
  split_and!; [done | | by intros ->].
  by destruct (Raw.le_0 python _) as [[] |].
Qed.

Lemma foreign_line_not_found_witness :
  Raw.remove_item sample rush bob (raw_payload (Raw.VInt 10) (Raw.VInt 1))
  = (rush, Raw.Answer Http404)
  ∧ Raw.update_item sample rush bob (raw_payload (Raw.VInt 10) (Raw.VInt 1))
    = (rush, Raw.Answer Http404).
Proof.
  destruct (foreign_line_not_found sample rush bob
              (raw_payload (Raw.VInt 10) (Raw.VInt 1)) 10
              {| CartItem.cart := 1; CartItem.product_id := 1;
                 CartItem.quantity := 3 |})
    as (Hremove & _ & Hupdate);
    [left; vm_compute; reflexivity | reflexivity | vm_compute; discriminate |].
  split; [exact Hremove |]. apply Hupdate. vm_compute. reflexivity.
Defined.

(** ** Answers and the stored rows *)

(** X6: what [add_item] and [update_item] answer is what they stored.  A
    cart item is only ever sent back with 201 (respectively 200), it is then
    the row stored under that identifier, it belongs to the caller's cart,
    and no other row changed; on every other outcome the [CartItem] table is
    untouched. *)
Theorem cart_answer_is_stored validate (db : DB) (user : User)
    (data : QueryDict) :
  let stored (expected : Z) (r : DB * Outcome) :=
    match r.2 with
    | Response (CartItemSerializer_data pk it) status =>
      status = expected
      ∧ cart_items r.1 !! pk = Some it
      ∧ CartItem.cart it = user_id user
      ∧ ∀ pk', pk' ≠ pk → cart_items r.1 !! pk' = cart_items db !! pk'
    | _ => cart_items r.1 = cart_items db
    end in
  stored HTTP_201_CREATED (CartViewSet.add_item validate db user data)
  ∧ stored HTTP_200_OK (CartViewSet.update_item db user data).
Proof.
  simpl. split.
  - destruct (get_object_tables db user) as (Hitems & _).
    unfold CartViewSet.add_item, CartViewSet.get_object in *.
    destruct (CartViewSet.Cart_get_or_create db user) as [db1 created].
    simpl in Hitems.
    destruct (validate db1 data) as [e | [product_id quantity]]; [done |].
    destruct (CartViewSet.CartItem_filter db1 (user_id user) product_id)
      as [| [pk existing] [| ? ?]] eqn:Hfilter; [| | done].
    + destruct (products db1 !! product_id); [| done]. simpl.
      split_and!; [done | apply lookup_insert_eq | done |].
      intros pk' Hne. by rewrite lookup_insert_ne, Hitems.
    + assert (Hin : (pk, existing)
                    ∈ CartViewSet.CartItem_filter db1 (user_id user)
                        product_id)
        by (rewrite Hfilter; apply list_elem_of_here).
      apply CartItem_filter_elem in Hin as (_ & Hc & _).
      simpl. destruct (products db1 !! _); [| done].
      destruct (decide _); [done |]. simpl.
      split_and!; [done | apply lookup_insert_eq | done |].
      intros pk' Hne. by rewrite lookup_insert_ne, Hitems.
  - unfold CartViewSet.update_item.
    destruct (decide (user_id user ∈ carts db)); [| done].
    destruct (decide _); [done |].
    destruct (CartViewSet.CartItem_get _ _ _) as [[pk it] |] eqn:Hget;
      [| done].
    apply CartItem_get_Some in Hget as (_ & _ & Hc).
    destruct (products db !! _); [| done].
    destruct (decide _); [done |]. simpl.
    split_and!; [done | apply lookup_insert_eq | done |].
    intros pk' Hne. by rewrite lookup_insert_ne.
Qed.

(** X7: [add_item] gets or creates the cart before it validates the
    payload, so a request the serializer rejects still leaves the caller
    with a cart, and with no new line. *)
Theorem add_item_rejected_creates_cart validate (db : DB) (user : User)
    (data : QueryDict) (e : Error) :
  validate (CartViewSet.get_object db user) data = inl e →
  CartViewSet.add_item validate db user data
  = (CartViewSet.get_object db user, ValidationError e)
  ∧ user_id user ∈ carts (CartViewSet.add_item validate db user data).1
  ∧ cart_items (CartViewSet.add_item validate db user data).1
    = cart_items db.
Proof.
  intros Hvalid.
  assert (Hrun : CartViewSet.add_item validate db user data
                 = (CartViewSet.get_object db user, ValidationError e)).
  { unfold CartViewSet.add_item, CartViewSet.get_object in *.
    destruct (CartViewSet.Cart_get_or_create db user) as [db1 created].
    simpl in *. by rewrite Hvalid. }
  rewrite Hrun. simpl. split_and!; [done | |].
  - unfold CartViewSet.get_object. rewrite Cart_get_or_create_db. simpl.
    by apply elem_of_union_l, elem_of_singleton.
  - by destruct (get_object_tables db user) as (-> & _).
Qed.

Lemma add_item_rejected_creates_cart_witness :
  (user_id bob ∉ carts shop)
  ∧ (CartViewSet.add_item positive_quantity shop bob (payload 1 0)).2
    = ValidationError InvalidQuantity
  ∧ user_id bob
    ∈ carts (CartViewSet.add_item positive_quantity shop bob (payload 1 0)).1.
Proof.
  destruct (add_item_rejected_creates_cart positive_quantity shop bob
              (payload 1 0) InvalidQuantity) as (Hrun & Hcart & _);
    [vm_compute; reflexivity |].
  split_and!; [vm_compute; discriminate | by rewrite Hrun | exact Hcart].
Defined.

(** ** Orders: status updates by an administrator, and listings *)

(** X8: for an administrator, [update_status] reaches the order with the
    given identifier whoever owns it: a missing order is a 404, a rejection
    by the serializer a validation error, both leaving the database as it
    was; on success the serializer's result replaces that one row.  In all
    cases no other order, and no product, cart or cart line, changes, and
    no order is created or deleted. *)
Theorem update_status_admin {StatusData : Type}
    (save : Order.t → StatusData → Error + Order.t)
    (db : DB) (user : User) (pk : Z) (data : StatusData) :
  is_admin user = true →
  let r := OrderViewSet.update_status save db user pk data in
  match orders db !! pk with
  | None => r = (db, Http404)
  | Some order =>
    match save order data with
    | inl e => r = (db, ValidationError e)
    | inr order' =>
      r = (set_orders (<[pk := order']> (orders db)) db,
           Response (OrderSerializer_data pk order') HTTP_200_OK)
    end
  end
  ∧ (∀ pk', pk' ≠ pk → orders r.1 !! pk' = orders db !! pk')
  ∧ dom (orders r.1) = dom (orders db)
  ∧ products r.1 = products db
  ∧ carts r.1 = carts db
  ∧ cart_items r.1 = cart_items db.
Proof.
  intros Hadmin r. subst r.
  unfold OrderViewSet.update_status, OrderViewSet.get_object,
    OrderViewSet.get_queryset.
  rewrite Hadmin. simpl.
  destruct (orders db !! pk) as [order |] eqn:Hpk; [| done].
  destruct (save order data) as [e | order']; [done |]. simpl.
  split_and!; try done.
  - intros pk' Hne. by rewrite lookup_insert_ne.
  - rewrite dom_insert_L. apply subseteq_union_1_L.
    apply singleton_subseteq_l, elem_of_dom. by exists order.
Qed.

Lemma update_status_admin_witness :
  is_admin root = true
  ∧ OrderViewSet.update_status Lifecycle.OrderStatusUpdateSerializer_save
      shop root 7 shipped = (shop, Http404)
  ∧ orders
      (OrderViewSet.update_status Lifecycle.OrderStatusUpdateSerializer_save
         shop root 101 cancelled).1 !! 100
    = orders shop !! 100.
Proof.
  split; [reflexivity |]. split.
  - by destruct (update_status_admin
                   Lifecycle.OrderStatusUpdateSerializer_save
                   shop root 7 shipped eq_refl) as [H _].
  - destruct (update_status_admin
                Lifecycle.OrderStatusUpdateSerializer_save
                shop root 101 cancelled eq_refl) as (_ & H & _).
    by apply H.
Defined.

(** X9: [my_orders] always returns the caller's own orders and nothing
    else.  For a non-admin it is the same as [list]; for an administrator
    it is the part of [list] the administrator owns. *)
Theorem my_orders_within_list (db : DB) (user : User) :
  (∀ pk order,
      OrderViewSet.my_orders db user !! pk = Some order
      ↔ OrderViewSet.list db user !! pk = Some order
        ∧ Order.user order = user_id user)
  ∧ (if is_admin user then
       OrderViewSet.my_orders db user ⊆ OrderViewSet.list db user
     else OrderViewSet.my_orders db user = OrderViewSet.list db user).
Proof.
  unfold OrderViewSet.my_orders, OrderViewSet.list,
    OrderViewSet.get_queryset.
  destruct (is_admin user).
  - split; [| apply map_filter_subseteq].
    intros pk order. by rewrite map_lookup_filter_Some.
  - split; [| done].
    intros pk order. rewrite map_lookup_filter_Some. simpl. tauto.
Qed.

(** ** The caller's cart *)

Lemma CartViewSet_get_queryset_elem (db : DB) (user : User) (owner : Z) :
  owner ∈ CartViewSet_get_queryset db user
  ↔ owner = user_id user ∧ user_id user ∈ carts db.
Proof.
  unfold CartViewSet_get_queryset. rewrite elem_of_filter.
  split; [by intros [-> ?] | by intros [-> ?]].
Qed.

(** X10: the cart queryset never holds a cart other than the caller's, and
    is empty exactly when the caller has none.  [retrieve] creates the cart
    on first access and serializes the caller's own cart, which is then in
    the caller's queryset; it changes no line, so the lines of the cart
    retrieved are exactly the caller's lines; a second [retrieve] changes
    nothing, and after it [clear] no longer fails for want of a cart. *)
Theorem retrieve_own_cart (db : DB) (user : User) :
  let r := CartViewSet_retrieve db user in
  CartViewSet_get_queryset db user ⊆ {[user_id user]}
  ∧ (CartViewSet_get_queryset db user = ∅ ↔ user_id user ∉ carts db)
  ∧ CartViewSet_get_queryset r.1 user = {[r.2]}
  ∧ (∀ pk it, CartViewSet.Cart_items r.1 r.2 !! pk = Some it
              ↔ cart_items db !! pk = Some it
                ∧ CartItem.cart it = user_id user)
  ∧ cart_items r.1 = cart_items db
  ∧ CartViewSet_retrieve r.1 user = r
  ∧ (CartViewSet.clear r.1 user).2
    = Response (message "Cart cleared") HTTP_200_OK.
Proof.
  intros r. subst r. unfold CartViewSet_retrieve. simpl.
  destruct (get_object_tables db user) as (Hitems & _).
  assert (Hcart : user_id user ∈ carts (CartViewSet.get_object db user)).
  { unfold CartViewSet.get_object. rewrite Cart_get_or_create_db. simpl.
    by apply elem_of_union_l, elem_of_singleton. }
  assert (Hagain : CartViewSet.get_object (CartViewSet.get_object db user)
                     user = CartViewSet.get_object db user).
  { unfold CartViewSet.get_object at 1, CartViewSet.Cart_get_or_create.
    by destruct (decide _). }
  split_and!.
  - intros owner Hin. apply CartViewSet_get_queryset_elem in Hin as [-> _].
    by apply elem_of_singleton.
  - split.
    + intros Hempty Hin.
      assert (H : user_id user ∈ CartViewSet_get_queryset db user)
        by (by apply CartViewSet_get_queryset_elem).
      rewrite Hempty in H. by apply not_elem_of_empty in H.
    + intros Hno. apply leibniz_equiv, elem_of_equiv_empty. intros owner Hin.
      by apply CartViewSet_get_queryset_elem in Hin as [_ ?].
  - apply leibniz_equiv, set_equiv. intros owner.
    rewrite CartViewSet_get_queryset_elem, elem_of_singleton.
    split; [by intros [? _] | done].
  - intros pk it. unfold CartViewSet.Cart_items.
    by rewrite map_lookup_filter_Some, Hitems.
  - done.
  - by rewrite Hagain.
  - unfold CartViewSet.clear. by destruct (decide _).
Qed.

(** ** One line per product, for every reachable state *)

Lemma handle_unique_together validate (db : DB) (call : User * CartRequest)
    (cart : Z) :
  unique_together db cart → unique_together (handle validate db call) cart.
Proof.
  intros Hunique. destruct call as [user []]; unfold handle; simpl.
  - by apply unique_together_get_object.
  - by apply add_item_unique_together.
  - by destruct (cart_operations_unique_together db user data cart Hunique)
      as (? & _ & _).
  - by destruct (cart_operations_unique_together db user data cart Hunique)
      as (_ & ? & _).
  - by destruct (cart_operations_unique_together db user ∅ cart Hunique)
      as (_ & _ & ?).
Qed.

(** X11: starting from a state in which every cart holds at most one line
    per product (an empty [CartItem] table in particular), no run of cart
    requests, by whatever users and with whatever payloads, ever produces
    two lines of one cart for the same product. *)
Theorem one_line_per_product validate (db : DB)
    (calls : list (User * CartRequest)) (cart : Z) :
  unique_together db cart →
  unique_together (handle_all validate db calls) cart.
Proof.
  revert db. induction calls as [| call calls IH]; intros db Hunique.
  - done.
  - simpl. apply IH. by apply handle_unique_together.
Qed.

Lemma one_line_per_product_witness :
  unique_together market 1
  ∧ unique_together
      (handle_all positive_quantity market
         [(alice, AddItem (payload 1 2)); (alice, AddItem (payload 1 2));
          (bob, Retrieve); (alice, UpdateItem (item_payload 0 1))])
      1.
Proof.
  assert (H : unique_together market 1).
  { intros pk1 pk2 it1 it2 H1. simpl in H1. by rewrite lookup_empty in H1. }
  split; [exact H |]. by apply one_line_per_product.
Defined.

(** ** The product catalogue *)

Section catalogue.
Variable to_decimal : string → option Z.
Variable int : string → option Z.
Variable objects : gmap Z CatalogProduct.t.

(** One optional price bound of [get_queryset]. *)
Lemma price_bound_step (value : option string)
    (P : Z → Z * CatalogProduct.t → Prop)
    `{∀ bound kv, Decision (P bound kv)}
    (queryset queryset' : gmap Z CatalogProduct.t) :
  (if ProductViewSet.truthy value then
     match to_decimal (default EmptyString value) with
     | Some bound => inr (filter (P bound) queryset)
     | None => inl ProductViewSet.InvalidDecimal
     end
   else inr queryset) = inr queryset' →
  ∀ k p, queryset' !! k = Some p
         ↔ queryset !! k = Some p
           ∧ ∀ s bound, value = Some s → s ≠ EmptyString →
                        to_decimal s = Some bound → P bound (k, p).
Proof.
  intros Hstep k p. destruct value as [s |]; simpl in Hstep.
  - destruct (bool_decide (s ≠ EmptyString)) eqn:Hs.
    + apply bool_decide_eq_true in Hs.
      destruct (to_decimal s) as [bound |] eqn:Hbound; [| done].
      injection Hstep as <-. rewrite map_lookup_filter_Some. split.
      * intros [Hk HP]. split; [done |].
        intros s' bound' [= <-] _ Hbound'. congruence.
      * intros [Hk HP]. split; [done |]. by apply (HP s bound).
    + apply bool_decide_eq_false in Hs. injection Hstep as <-.
      split; [| by intros [? _]].
      intros Hk. split; [done |]. intros s' bound' [= <-] Hne.
      exfalso. apply Hs. done.
  - injection Hstep as <-. split; [| by intros [? _]].
    intros Hk. split; [done |]. intros; discriminate.
Qed.

(** X12: which products [get_queryset] returns.  When it returns, a product
    is in the result exactly when it is in the table, its price respects
    each non-blank bound given, its stock is positive under
    [in_stock=true] and zero under [in_stock=false], and, unless the
    caller is an authenticated administrator, it is active.  Rows are
    never altered. *)
Theorem get_queryset_lookup (request : Request.t)
    (queryset : gmap Z CatalogProduct.t) :
  ProductViewSet.get_queryset to_decimal request objects = inr queryset →
  ∀ k p,
    queryset !! k = Some p
    ↔ objects !! k = Some p
      ∧ (∀ s bound,
           Request.query_params request !! "min_price" = Some s →
           s ≠ EmptyString → to_decimal s = Some bound →
           bound ≤ CatalogProduct.price p)
      ∧ (∀ s bound,
           Request.query_params request !! "max_price" = Some s →
           s ≠ EmptyString → to_decimal s = Some bound →
           CatalogProduct.price p ≤ bound)
      ∧ (Request.query_params request !! "in_stock" = Some "true" →
         0 < CatalogProduct.stock_quantity p)
      ∧ (Request.query_params request !! "in_stock" = Some "false" →
         CatalogProduct.stock_quantity p = 0)
      ∧ (Request.is_authenticated_admin request = false →
         CatalogProduct.is_active p = true).
Proof.
  unfold ProductViewSet.get_queryset. intros Hrun k p.
  destruct (if ProductViewSet.truthy
                 (Request.query_params request !! "min_price") then _
            else _) as [e | q1] eqn:Hmin; [done |].
  destruct (if ProductViewSet.truthy
                 (Request.query_params request !! "max_price") then _
            else _) as [e | q2] eqn:Hmax; [done |].
  injection Hrun as <-.
  pose proof (price_bound_step _
                (λ bound kv, bound ≤ CatalogProduct.price kv.2)
                _ _ Hmin k p) as Hq1.
  pose proof (price_bound_step _
                (λ bound kv, CatalogProduct.price kv.2 ≤ bound)
                _ _ Hmax k p) as Hq2.
  simpl in Hq1, Hq2.
  assert (Hstock :
    (if decide (Request.query_params request !! "in_stock" = Some "true")
     then filter (λ kv, 0 < CatalogProduct.stock_quantity kv.2) q2
     else if decide (Request.query_params request !! "in_stock"
                     = Some "false")
          then filter (λ kv, CatalogProduct.stock_quantity kv.2 = 0) q2
          else q2) !! k = Some p
    ↔ q2 !! k = Some p
      ∧ (Request.query_params request !! "in_stock" = Some "true" →
         0 < CatalogProduct.stock_quantity p)
      ∧ (Request.query_params request !! "in_stock" = Some "false" →
         CatalogProduct.stock_quantity p = 0)).
  { destruct (decide (_ = Some "true")) as [Ht | Ht].
    - rewrite map_lookup_filter_Some. simpl. rewrite Ht.
      split; [intros [? ?]; split_and!; done | intros (? & Hpos & _); auto].
    - destruct (decide (_ = Some "false")) as [Hf | Hf].
      + rewrite map_lookup_filter_Some. simpl.
        split; [intros [? ?]; split_and!; done | intros (? & _ & Hz); auto].
      + split; [intros ?; split_and!; done | by intros (? & _)]. }
  destruct (Request.is_authenticated_admin request); simpl.
  - rewrite Hstock, Hq2, Hq1. split.
    + intros (((? & ?) & ?) & ? & ?). split_and!; done.
    + intros (? & ? & ? & ? & ? & _). split_and!; done.
  - rewrite map_lookup_filter_Some, Hstock, Hq2, Hq1. simpl. split.
    + intros ((((? & ?) & ?) & ? & ?) & ?). split_and!; done.
    + intros (? & ? & ? & ? & ? & Hact). split_and!; auto.
Qed.
End catalogue.

Lemma get_queryset_lookup_witness :
  ∃ queryset,
    ProductViewSet.get_queryset numeral
      (GET None (<["in_stock" := "true"]> (<["max_price" := "500"]> ∅)))
      catalogue = inr queryset
    ∧ (∃ p, queryset !! 1 = Some p)
    ∧ queryset !! 2 = None.
Proof.
  destruct (ProductViewSet.get_queryset numeral
              (GET None (<["in_stock" := "true"]>
                           (<["max_price" := "500"]> ∅)))
              catalogue) as [e | queryset] eqn:Hrun.
  { vm_compute in Hrun. discriminate Hrun. }
  exists queryset. split; [done |].
  pose proof (get_queryset_lookup numeral catalogue _ queryset Hrun)
    as Hlookup.
  split.
  - eexists. apply Hlookup.
    split; [vm_compute; reflexivity |].
    split_and!.
    + intros s bound Hs. vm_compute in Hs. discriminate Hs.
    + intros s bound Hs _ Hbound. vm_compute in Hs. injection Hs as <-.
      vm_compute in Hbound. injection Hbound as <-. vm_compute.
      discriminate.
    + intros _. vm_compute. reflexivity.
    + intros Hs. vm_compute in Hs. discriminate Hs.
    + intros _. reflexivity.
  - destruct (queryset !! 2) as [p |] eqn:Hp; [| done].
    apply Hlookup in Hp as (Hp & _ & _ & _ & _ & Hactive).
    vm_compute in Hp. injection Hp as <-.
    specialize (Hactive eq_refl). discriminate Hactive.
Defined.

Section catalogue_parameters.
Variable to_decimal : string → option Z.
Variable int : string → option Z.
Variable objects : gmap Z CatalogProduct.t.

(** X13: parameters [get_queryset] ignores.  A price bound given as the
    empty string, and an [in_stock] value other than the exact strings
    [true] and [false], have no effect: the result is the one of the same
    request without that parameter. *)
Theorem get_queryset_ignored_params (request : Request.t) :
  (Request.query_params request !! "min_price" = Some EmptyString →
   ProductViewSet.get_queryset to_decimal request objects
   = ProductViewSet.get_queryset to_decimal
       (Request.without_param "min_price" request) objects)
  ∧ (Request.query_params request !! "max_price" = Some EmptyString →
     ProductViewSet.get_queryset to_decimal request objects
     = ProductViewSet.get_queryset to_decimal
         (Request.without_param "max_price" request) objects)
  ∧ (∀ value,
       Request.query_params request !! "in_stock" = Some value →
       value ≠ "true" → value ≠ "false" →
       ProductViewSet.get_queryset to_decimal request objects
       = ProductViewSet.get_queryset to_decimal
           (Request.without_param "in_stock" request) objects).
Proof.
  unfold ProductViewSet.get_queryset, Request.without_param,
    Request.is_authenticated_admin.
  split_and!; simpl.
  - intros Hblank.
    rewrite lookup_delete_eq, !lookup_delete_ne, Hblank by done. done.
  - intros Hblank.
    rewrite lookup_delete_eq, !lookup_delete_ne, Hblank by done. done.
  - intros value Hvalue Htrue Hfalse.
    rewrite lookup_delete_eq, !lookup_delete_ne, Hvalue by done.
    destruct (decide (Some value = Some "true")) as [[= ?] |]; [done |].
    destruct (decide (Some value = Some "false")) as [[= ?] |]; [done |].
    destruct (decide (None = Some "true")); [done |].
    by destruct (decide (None = Some "false")).
Qed.

Lemma price_bound_raises (value : option string)
    (P : Z → Z * CatalogProduct.t → Prop)
    `{∀ bound kv, Decision (P bound kv)}
    (queryset : gmap Z CatalogProduct.t)
    (r : ProductViewSet.Raised + gmap Z CatalogProduct.t) :
  (if ProductViewSet.truthy value then
     match to_decimal (default EmptyString value) with
     | Some bound => inr (filter (P bound) queryset)
     | None => inl ProductViewSet.InvalidDecimal
     end
   else inr queryset) = r →
  (∃ e, r = inl e)
  ↔ ∃ s, value = Some s ∧ s ≠ EmptyString ∧ to_decimal s = None.
Proof.
  intros <-. destruct value as [s |]; simpl.
  - destruct (bool_decide (s ≠ EmptyString)) eqn:Hs.
    + apply bool_decide_eq_true in Hs.
      destruct (to_decimal s) as [bound |] eqn:Hbound.
      * split; [by intros [e He] |].
        intros (s' & [= <-] & _ & Hnone). congruence.
      * split; [intros _; by exists s |].
        intros _. by exists ProductViewSet.InvalidDecimal.
    + apply bool_decide_eq_false in Hs.
      split; [by intros [e He] |].
      intros (s' & [= <-] & Hne & _). exfalso. apply Hs. done.
  - split; [by intros [e He] | by intros (s' & Hs & _)].
Qed.

(** X14: when [get_queryset] fails.  It raises exactly when [min_price] or
    [max_price] is given, is not blank, and is refused by the decimal
    conversion; nothing else in the request can make it fail. *)
Theorem get_queryset_raises (request : Request.t) :
  let refused (key : string) :=
    ∃ s, Request.query_params request !! key = Some s
         ∧ s ≠ EmptyString ∧ to_decimal s = None in
  (∃ e, ProductViewSet.get_queryset to_decimal request objects = inl e)
  ↔ refused "min_price" ∨ refused "max_price".
Proof.
  simpl. unfold ProductViewSet.get_queryset.
  destruct (if ProductViewSet.truthy
                 (Request.query_params request !! "min_price") then _
            else _) as [e | q1] eqn:Hmin;
    apply price_bound_raises in Hmin.
  { split; [intros _; left; apply Hmin; by exists e | intros _; by exists e]. }
  destruct (if ProductViewSet.truthy
                 (Request.query_params request !! "max_price") then _
            else _) as [e | q2] eqn:Hmax;
    apply price_bound_raises in Hmax.
  { split; [intros _; right; apply Hmax; by exists e | intros _; by exists e]. }
  split; [by intros [e He] |].
  intros [Hrefused | Hrefused].
  - apply Hmin in Hrefused as [e He]. discriminate He.
  - apply Hmax in Hrefused as [e He]. discriminate He.
Qed.
End catalogue_parameters.

Section catalogue_views.
Variable to_decimal : string → option Z.
Variable int : string → option Z.
Variable objects : gmap Z CatalogProduct.t.

(** [get_queryset] reads three parameters and nothing else. *)
Lemma get_queryset_params (request request' : Request.t) :
  Request.is_authenticated_admin request
  = Request.is_authenticated_admin request' →
  (∀ key, key ∈ ["min_price"; "max_price"; "in_stock"] →
          Request.query_params request !! key
          = Request.query_params request' !! key) →
  ProductViewSet.get_queryset to_decimal request objects
  = ProductViewSet.get_queryset to_decimal request' objects.
Proof.
  intros Hadmin Hparams. unfold ProductViewSet.get_queryset.
  rewrite Hadmin.
  rewrite (Hparams "min_price"), (Hparams "max_price"),
    (Hparams "in_stock"); [done | ..];
    repeat first [ apply list_elem_of_here | apply list_elem_of_further ].
Qed.

(** X15: [in_stock=true] and [in_stock=false] split the unfiltered result
    by stock.  If the request without [in_stock] returns a queryset, then
    with [in_stock=true] it returns exactly the rows of it with a positive
    stock, and with [in_stock=false] exactly those with stock zero: the two
    never overlap, and a row with a negative stock is in neither. *)
Theorem in_stock_splits (request : Request.t)
    (queryset : gmap Z CatalogProduct.t) :
  ProductViewSet.get_queryset to_decimal
    (Request.without_param "in_stock" request) objects = inr queryset →
  ∃ positive zero,
    ProductViewSet.get_queryset to_decimal
      (Request.with_param "in_stock" "true" request) objects = inr positive
    ∧ ProductViewSet.get_queryset to_decimal
        (Request.with_param "in_stock" "false" request) objects = inr zero
    ∧ (∀ k p, positive !! k = Some p
              ↔ queryset !! k = Some p
                ∧ 0 < CatalogProduct.stock_quantity p)
    ∧ (∀ k p, zero !! k = Some p
              ↔ queryset !! k = Some p
                ∧ CatalogProduct.stock_quantity p = 0)
    ∧ positive ##ₘ zero.
Proof.
  unfold ProductViewSet.get_queryset, Request.with_param,
    Request.without_param, Request.is_authenticated_admin. simpl.
  rewrite !lookup_insert_eq, !lookup_delete_eq.
  rewrite !lookup_insert_ne, !lookup_delete_ne by done.
  destruct (if ProductViewSet.truthy
                 (Request.query_params request !! "min_price") then _
            else _) as [e | q1]; [done |].
  destruct (if ProductViewSet.truthy
                 (Request.query_params request !! "max_price") then _
            else _) as [e | q2]; [done |].
  destruct (decide (Some "true" = Some "true")); [| done].
  destruct (decide (Some "false" = Some "true")); [done |].
  destruct (decide (Some "false" = Some "false")); [| done].
  destruct (decide (None = Some "true")); [done |].
  destruct (decide (None = Some "false")); [done |].
  intros [= <-]. eexists _, _. split; [done |]. split; [done |].
  assert (Hsplit :
    (∀ k p,
       (if negb match Request.user request with
                | Some u => is_admin u | None => false end
        then filter (λ kv, CatalogProduct.is_active kv.2 = true)
               (filter (λ kv, 0 < CatalogProduct.stock_quantity kv.2) q2)
        else filter (λ kv, 0 < CatalogProduct.stock_quantity kv.2) q2)
       !! k = Some p
       ↔ (if negb match Request.user request with
                  | Some u => is_admin u | None => false end
          then filter (λ kv, CatalogProduct.is_active kv.2 = true) q2
          else q2) !! k = Some p
         ∧ 0 < CatalogProduct.stock_quantity p)
    ∧ (∀ k p,
         (if negb match Request.user request with
                  | Some u => is_admin u | None => false end
          then filter (λ kv, CatalogProduct.is_active kv.2 = true)
                 (filter (λ kv, CatalogProduct.stock_quantity kv.2 = 0) q2)
          else filter (λ kv, CatalogProduct.stock_quantity kv.2 = 0) q2)
         !! k = Some p
         ↔ (if negb match Request.user request with
                    | Some u => is_admin u | None => false end
            then filter (λ kv, CatalogProduct.is_active kv.2 = true) q2
            else q2) !! k = Some p
           ∧ CatalogProduct.stock_quantity p = 0)).
  { destruct (negb _); split; intros k p;
      rewrite ?map_lookup_filter_Some; simpl; tauto. }
  destruct Hsplit as [Hpositive Hzero].
  split; [exact Hpositive |]. split; [exact Hzero |].
  apply map_disjoint_spec. intros k p p' Hp Hp'.
  apply Hpositive in Hp as [Hq Hpos]. apply Hzero in Hp' as [Hq' Hz].
  assert (p = p') as <- by congruence. lia.
Qed.
End catalogue_views.

Lemma in_stock_splits_witness :
  ∃ positive zero,
    ProductViewSet.get_queryset numeral
      (Request.with_param "in_stock" "true" (GET None ∅)) catalogue
    = inr positive
    ∧ ProductViewSet.get_queryset numeral
        (Request.with_param "in_stock" "false" (GET None ∅)) catalogue
      = inr zero
    ∧ positive ##ₘ zero.
Proof.
  destruct (ProductViewSet.get_queryset numeral
              (Request.without_param "in_stock" (GET None ∅)) catalogue)
    as [e | queryset] eqn:Hrun.
  { vm_compute in Hrun. discriminate Hrun. }
  destruct (in_stock_splits numeral catalogue (GET None ∅) queryset Hrun)
    as (positive & zero & Hpositive & Hzero & _ & _ & Hdisjoint).
  by exists positive, zero.
Defined.

Section catalogue_actions.
Variable to_decimal : string → option Z.
Variable int : string → option Z.
Variable objects : gmap Z CatalogProduct.t.

Lemma get_queryset_subset (request : Request.t)
    (queryset : gmap Z CatalogProduct.t) :
  ProductViewSet.get_queryset to_decimal request objects = inr queryset →
  ∀ k p, queryset !! k = Some p → objects !! k = Some p.
Proof.
  unfold ProductViewSet.get_queryset. intros Hrun k p.
  destruct (if ProductViewSet.truthy
                 (Request.query_params request !! "min_price") then _
            else _) as [e | q1] eqn:Hmin; [done |].
  destruct (if ProductViewSet.truthy
                 (Request.query_params request !! "max_price") then _
            else _) as [e | q2] eqn:Hmax; [done |].
  injection Hrun as <-.
  pose proof (price_bound_step to_decimal _ _ _ _ Hmin k p) as Hq1.
  pose proof (price_bound_step to_decimal _ _ _ _ Hmax k p) as Hq2.
  intros Hin.
  assert (Hq : q2 !! k = Some p).
  { destruct (negb _); destruct (decide _); try destruct (decide _);
      repeat (apply map_lookup_filter_Some in Hin as [Hin _]); done. }
  apply Hq2 in Hq as [Hq _]. by apply Hq1 in Hq as [Hq _].
Qed.

(** X16: [featured] answers the same to everyone.  Two requests with the
    same query string get the same answer whoever sends them, an
    administrator included; and every product answered is in the table,
    featured and active. *)
Theorem featured_same_for_everyone (request request' : Request.t) :
  Request.query_params request = Request.query_params request' →
  ProductViewSet.featured to_decimal request objects
  = ProductViewSet.featured to_decimal request' objects
  ∧ ∀ data,
      ProductViewSet.featured to_decimal request objects
      = ProductViewSet.Products data →
      ∀ k p, data !! k = Some p →
             objects !! k = Some p
             ∧ CatalogProduct.featured p = true
             ∧ CatalogProduct.is_active p = true.
Proof.
  intros Hparams. split.
  - unfold ProductViewSet.featured, ProductViewSet.get_queryset.
    rewrite <- Hparams.
    destruct (if ProductViewSet.truthy
                   (Request.query_params request !! "min_price") then _
              else _) as [e | q1]; [done |].
    destruct (if ProductViewSet.truthy
                   (Request.query_params request !! "max_price") then _
              else _) as [e | q2]; [done |].
    f_equal.
    assert (Hactive : ∀ q : gmap Z CatalogProduct.t,
      filter (λ kv, CatalogProduct.featured kv.2 = true
                    ∧ CatalogProduct.is_active kv.2 = true)
        (filter (λ kv, CatalogProduct.is_active kv.2 = true) q)
      = filter (λ kv, CatalogProduct.featured kv.2 = true
                      ∧ CatalogProduct.is_active kv.2 = true) q).
    { intros q. apply map_filter_filter_l. by intros k p _ [_ ?]. }
    destruct (Request.is_authenticated_admin request),
      (Request.is_authenticated_admin request'); simpl;
      by rewrite ?Hactive.
  - intros data Hfeatured k p Hin. unfold ProductViewSet.featured in Hfeatured.
    destruct (ProductViewSet.get_queryset to_decimal request objects)
      as [e | queryset] eqn:Hrun; [done |].
    injection Hfeatured as <-.
    apply map_lookup_filter_Some in Hin as (Hin & Hf & Ha).
    split_and!; [| done ..].
    by apply (get_queryset_subset request queryset).
Qed.

(** X17: [low_stock] is a GET, so the permission class lets every caller
    through; the handler itself answers 403 to every caller who is not an
    authenticated administrator, before it reads any parameter. *)
Theorem low_stock_requires_admin (request : Request.t) :
  Request.method request = "GET" →
  Request.is_authenticated_admin request = false →
  IsAdminOrReadOnly.has_permission request = true
  ∧ ProductViewSet.low_stock to_decimal int request objects
    = ProductViewSet.ErrorResponse "Admin access required"
        HTTP_403_FORBIDDEN.
Proof.
  intros Hmethod Hadmin. split.
  - unfold IsAdminOrReadOnly.has_permission. rewrite Hmethod.
    by destruct (decide _) as [_ | Hno];
      [| exfalso; apply Hno, list_elem_of_here].
  - unfold ProductViewSet.low_stock. by rewrite Hadmin.
Qed.

(** X18: for an administrator, raising the threshold of [low_stock] only
    adds products: with thresholds read as [t1 <= t2] the two requests
    either both raise the same error or answer querysets of which the first
    is contained in the second, every product of it being active with stock
    at most [t1].  Leaving the threshold out is the same as sending one read
    as 10, and a threshold that is not an integer raises [ValueError]
    whatever the other parameters. *)
Theorem low_stock_threshold (request : Request.t) (s1 s2 : string)
    (t1 t2 : Z) :
  Request.is_authenticated_admin request = true →
  int s1 = Some t1 → int s2 = Some t2 → t1 ≤ t2 →
  match ProductViewSet.low_stock to_decimal int
          (Request.with_param "threshold" s1 request) objects,
        ProductViewSet.low_stock to_decimal int
          (Request.with_param "threshold" s2 request) objects with
  | ProductViewSet.Products data1, ProductViewSet.Products data2 =>
    data1 ⊆ data2
    ∧ ∀ k p, data1 !! k = Some p →
             CatalogProduct.stock_quantity p ≤ t1
             ∧ CatalogProduct.is_active p = true
  | ProductViewSet.Raise e1, ProductViewSet.Raise e2 => e1 = e2
  | _, _ => False
  end
  ∧ (t1 = 10 →
     ProductViewSet.low_stock to_decimal int
       (Request.without_param "threshold" request) objects
     = ProductViewSet.low_stock to_decimal int
         (Request.with_param "threshold" s1 request) objects)
  ∧ (∀ s, int s = None →
          ProductViewSet.low_stock to_decimal int
            (Request.with_param "threshold" s request) objects
          = ProductViewSet.Raise ProductViewSet.ValueError).
Proof.
  intros Hadmin Ht1 Ht2 Hle.
  assert (Hqueryset : ∀ request',
    Request.is_authenticated_admin request'
    = Request.is_authenticated_admin request →
    (∀ key, key ≠ "threshold" →
            Request.query_params request' !! key
            = Request.query_params request !! key) →
    ProductViewSet.get_queryset to_decimal request' objects
    = ProductViewSet.get_queryset to_decimal request objects).
  { intros request' Hsame Hparams. apply get_queryset_params; [done |].
    intros key Hkey. apply Hparams. intros ->.
    repeat (apply elem_of_cons in Hkey as [Hkey | Hkey];
            [discriminate Hkey |]).
    by apply elem_of_nil in Hkey. }
  unfold ProductViewSet.low_stock.
  rewrite (Hqueryset (Request.with_param "threshold" s1 request)),
    (Hqueryset (Request.with_param "threshold" s2 request)),
    (Hqueryset (Request.without_param "threshold" request));
    simpl; try done;
    try (intros key Hkey; by rewrite lookup_insert_ne);
    try (intros key Hkey; by rewrite lookup_delete_ne).
  unfold Request.is_authenticated_admin in *. simpl. rewrite Hadmin. simpl.
  rewrite !lookup_insert_eq, lookup_delete_eq, Ht1, Ht2.
  split_and!.
  - destruct (ProductViewSet.get_queryset to_decimal request objects)
      as [e | queryset]; [done |].
    split.
    + apply map_subseteq_spec. intros k p Hin.
      apply map_lookup_filter_Some in Hin as (Hin & Hstock & Hactive).
      apply map_lookup_filter_Some. simpl in *. split_and!; [done | lia | done].
    + intros k p Hin.
      by apply map_lookup_filter_Some in Hin as (_ & Hstock & Hactive).
  - by intros ->.
  - intros s Hs. by rewrite lookup_insert_eq, Hs.
Qed.

(** X19: who may write can see what they write.  For a method outside
    GET, HEAD and OPTIONS the permission is granted exactly to an
    authenticated administrator, never to the anonymous user; and a request
    so permitted, sent without filters, has the whole table as its
    queryset, inactive products included. *)
Theorem write_permission (request : Request.t) :
  Request.method request ∉ IsAdminOrReadOnly.SAFE_METHODS →
  (IsAdminOrReadOnly.has_permission request = true
   ↔ ∃ u, Request.user request = Some u ∧ is_admin u = true)
  ∧ (IsAdminOrReadOnly.has_permission request = true →
     Request.query_params request = ∅ →
     ProductViewSet.get_queryset to_decimal request objects = inr objects).
Proof.
  intros Hunsafe. unfold IsAdminOrReadOnly.has_permission.
  destruct (decide _) as [Hsafe | _]; [contradiction |].
  unfold ProductViewSet.get_queryset, Request.is_authenticated_admin.
  split.
  - destruct (Request.user request) as [u |].
    + split; [intros Hu; by exists u | by intros (u' & [= <-] & Hu)].
    + split; [done | by intros (u' & Hu & _)].
  - intros Hadmin ->. rewrite !lookup_empty. simpl.
    destruct (decide (None = Some "true")); [done |].
    destruct (decide (None = Some "false")); [done |].
    by rewrite Hadmin.
Qed.
End catalogue_actions.

Lemma featured_same_for_everyone_witness :
  ProductViewSet.featured numeral (GET None ∅) catalogue
  = ProductViewSet.featured numeral (GET (Some root) ∅) catalogue.
Proof.
  by apply (featured_same_for_everyone numeral catalogue
              (GET None ∅) (GET (Some root) ∅)).
Defined.

Lemma low_stock_requires_admin_witness :
  IsAdminOrReadOnly.has_permission
    (GET (Some alice) (<["threshold" := "many"]> ∅)) = true
  ∧ ProductViewSet.low_stock numeral numeral
      (GET (Some alice) (<["threshold" := "many"]> ∅)) catalogue
    = ProductViewSet.ErrorResponse "Admin access required"
        HTTP_403_FORBIDDEN.
Proof.
  by apply (low_stock_requires_admin numeral numeral catalogue
              (GET (Some alice) (<["threshold" := "many"]> ∅))).
Defined.

Lemma low_stock_threshold_witness :
  ∃ data1 data2,
    ProductViewSet.low_stock numeral numeral
      (Request.with_param "threshold" "0" (GET (Some root) ∅)) catalogue
    = ProductViewSet.Products data1
    ∧ ProductViewSet.low_stock numeral numeral
        (Request.with_param "threshold" "3" (GET (Some root) ∅)) catalogue
      = ProductViewSet.Products data2
    ∧ data1 ⊆ data2.
Proof.
  assert (H0 : numeral "0" = Some 0) by (vm_compute; reflexivity).
  assert (H3 : numeral "3" = Some 3) by (vm_compute; reflexivity).
  destruct (low_stock_threshold numeral numeral catalogue
              (GET (Some root) ∅) "0" "3" 0 3 eq_refl H0 H3)
    as [Hmono _]; [lia |].
  destruct (ProductViewSet.low_stock numeral numeral
              (Request.with_param "threshold" "0" (GET (Some root) ∅))
              catalogue) as [data1 | |] eqn:H1;
    [| vm_compute in H1; discriminate H1 ..].
  destruct (ProductViewSet.low_stock numeral numeral
              (Request.with_param "threshold" "3" (GET (Some root) ∅))
              catalogue) as [data2 | |] eqn:H2;
    [| vm_compute in H2; discriminate H2 ..].
  exists data1, data2. by destruct Hmono as [Hsub _].
Defined.

Lemma write_permission_witness :
  IsAdminOrReadOnly.has_permission
    {| Request.method := "DELETE"; Request.user := None;
       Request.query_params := ∅ |} = false
  ∧ ProductViewSet.get_queryset numeral
      {| Request.method := "PUT"; Request.user := Some root;
         Request.query_params := ∅ |} catalogue = inr catalogue.
Proof.
  assert (Hunsafe : ∀ m, m = "DELETE" ∨ m = "PUT" →
                         m ∉ IsAdminOrReadOnly.SAFE_METHODS).
  { intros m Hm Hin.
    repeat (apply elem_of_cons in Hin as [-> | Hin];
            [by destruct Hm |]).
    by apply elem_of_nil in Hin. }
  split.
  - destruct (write_permission numeral catalogue
                {| Request.method := "DELETE"; Request.user := None;
                   Request.query_params := ∅ |}) as [Hiff _].
    { apply Hunsafe. by left. }
    destruct (IsAdminOrReadOnly.has_permission _); [| done].
    by destruct Hiff as [[u [Hu _]] _].
  - destruct (write_permission numeral catalogue
                {| Request.method := "PUT"; Request.user := Some root;
                   Request.query_params := ∅ |}) as [Hiff Hsees].
    { apply Hunsafe. by right. }
    apply Hsees; [| done]. apply Hiff. by exists root.
Defined.
